(** * puzzles: the HTTP front-end of the word-game lookup service

    A shallow embedding of the two program variants of the repository and
    the properties of their request pipeline, template reloading and
    start-up sequence.

    - [Single] embeds the variant that loads one word list on every
      request (package-level [wordList] is a file path).
    - [Multiplex] embeds the variant that loads a directory of word lists
      once at start-up (package-level [words]).

    Go strings are byte sequences, modelled by [string]; [int] is [Z].
    Package-level variables, the standard logger, the calls made to the
    word data provider and the goroutines started with [go] are fields of
    an explicit [World], threaded through a state monad whose outcomes also
    cover [os.Exit] and [panic]. *)

From Stdlib Require Import ZArith List Bool Lia.
From Stdlib Require Import Strings.String Strings.Ascii.
Import ListNotations.

Local Open Scope string_scope.
Local Open Scope Z_scope.

(** ** Go values *)

(** A slice value is either [nil] or a (possibly empty) sequence; [len]
    is 0 for both, but [encoding/json] tells them apart. *)
Inductive slice (A : Type) : Type :=
| Nil
| Slice (elems : list A).
Arguments Nil {A}.
Arguments Slice {A} elems.

Definition len_slice {A : Type} (s : slice A) : Z :=
  match s with
  | Nil => 0
  | Slice l => Z.of_nat (List.length l)
  end.

Definition len (s : string) : Z := Z.of_nat (String.length s).

(** A Go [(value, error)] pair in which exactly one side is meaningful. *)
Inductive result (A : Type) : Type :=
| Ok (a : A)
| Err (msg : string).
Arguments Ok {A} a.
Arguments Err {A} msg.

(** [net/http] status codes used by the handlers. *)
Definition StatusOK : Z := 200.
Definition StatusBadRequest : Z := 400.
Definition StatusNotFound : Z := 404.
Definition StatusInternalServerError : Z := 500.

(** The double quote character. *)
Definition dquote : string := String (ascii_of_nat 34) EmptyString.

(** ** encoding/json *)

(** The bytes [encoding/json] copies unchanged when it encodes a string with
    HTML escaping on (its [htmlSafeSet]): ASCII from space on, except the
    double quote, the backslash, and the three HTML characters. *)
Definition htmlSafe (c : ascii) : bool :=
  let n := nat_of_ascii c in
  (Nat.leb 32 n && Nat.ltb n 128
   && negb (Nat.eqb n 34) && negb (Nat.eqb n 38) && negb (Nat.eqb n 60)
   && negb (Nat.eqb n 62) && negb (Nat.eqb n 92))%bool.

Fixpoint all_htmlSafe (s : string) : bool :=
  match s with
  | EmptyString => true
  | String c s' => (htmlSafe c && all_htmlSafe s')%bool
  end.

(** ** What the program takes from outside

    The host (file system, inotify, environment), the kowalski library,
    [html/template], [path/filepath] and the string encoder of
    [encoding/json] are not part of the repository.  They are an interface
    here; every theorem holds for all its implementations. *)

Record Flags : Type := mkFlags {
  wordList : string;
  templateDirectory : string;
  download : bool
}.

Class Externals : Type := {
  (** state of the host the process runs on *)
  OS : Type;
  (** [envflag.Parse]: the flag values, or an error *)
  envflag_Parse : OS -> Flags -> result Flags;
  (** the value [kowalski.LoadWords] returns, with its two lookups *)
  Words : Type;
  kowalski_LoadWords : OS -> string -> result Words;
  Words_Anagrams : Words -> string -> slice string;
  Words_Match : Words -> string -> slice string;
  (** [*template.Template] and [template.ParseFiles] *)
  Template : Type;
  template_ParseFiles : OS -> list string -> result Template;
  (** [filepath.Join] *)
  filepath_Join : list string -> string;
  (** [fsnotify.NewWatcher] and the watcher's [Add] method *)
  Watcher : Type;
  fsnotify_NewWatcher : OS -> result Watcher;
  Watcher_Add : OS -> Watcher -> string -> option string;
  (** [*kowalski.SpellChecker] of the multiplexed variant *)
  SpellChecker : Type;
  (** the JSON encoding of a Go string, quotes included *)
  json_string : string -> string;
  json_string_safe :
    forall s, all_htmlSafe s = true -> json_string s = dquote ++ s ++ dquote
}.

(** ** The world a run acts on *)

Inductive ProviderCall : Type :=
| CallLoadWords (path : string)
| CallAnagrams (input : string)
| CallMatch (input : string).

Inductive Signal : Type :=
| os_Interrupt
| os_Kill.

(** Goroutines started with [go]. *)
Inductive Task : Type :=
| TemplateReloaderTask
| ListenAndServeTask (addr : string) (patterns : list string).

(** How a piece of Go code ends: it returns a value, the process is left
    through [os.Exit], or a panic unwinds it. *)
Inductive Outcome (A : Type) : Type :=
| Done (a : A)
| Exit (code : Z)
| Panic (msg : string).
Arguments Done {A} a.
Arguments Exit {A} code.
Arguments Panic {A} msg.

Section Runtime.
Context {E : Externals}.

Record World : Type := mkWorld {
  os : OS;
  flags : Flags;                      (* the flag variables *)
  templates : option Template;        (* [templates]; [None] is nil *)
  words : list SpellChecker;          (* [words] of the multiplexed variant *)
  logged : list string;               (* standard logger, oldest first *)
  provider : list ProviderCall;       (* calls into kowalski, oldest first *)
  tasks : list Task;                  (* goroutines started, oldest first *)
  notified : list Signal              (* signals passed to signal.Notify *)
}.

Definition set_os (o : OS) (w : World) : World :=
  mkWorld o (flags w) (templates w) (words w) (logged w) (provider w)
          (tasks w) (notified w).
Definition set_flags (f : Flags) (w : World) : World :=
  mkWorld (os w) f (templates w) (words w) (logged w) (provider w)
          (tasks w) (notified w).
Definition set_templates (t : option Template) (w : World) : World :=
  mkWorld (os w) (flags w) t (words w) (logged w) (provider w)
          (tasks w) (notified w).
Definition set_words (ws : list SpellChecker) (w : World) : World :=
  mkWorld (os w) (flags w) (templates w) ws (logged w) (provider w)
          (tasks w) (notified w).
Definition add_log (line : string) (w : World) : World :=
  mkWorld (os w) (flags w) (templates w) (words w) (logged w ++ [line])
          (provider w) (tasks w) (notified w).
Definition add_call (c : ProviderCall) (w : World) : World :=
  mkWorld (os w) (flags w) (templates w) (words w) (logged w)
          (provider w ++ [c]) (tasks w) (notified w).
Definition add_task (t : Task) (w : World) : World :=
  mkWorld (os w) (flags w) (templates w) (words w) (logged w) (provider w)
          (tasks w ++ [t]) (notified w).
Definition add_notified (s : list Signal) (w : World) : World :=
  mkWorld (os w) (flags w) (templates w) (words w) (logged w) (provider w)
          (tasks w) (notified w ++ s).

(** ** The monad of the program: state, [os.Exit] and [panic] *)

Definition M (A : Type) : Type := World -> World * Outcome A.

Definition ret {A : Type} (a : A) : M A := fun w => (w, Done a).

Definition bind {A B : Type} (m : M A) (k : A -> M B) : M B :=
  fun w =>
    match m w with
    | (w', Done a) => k a w'
    | (w', Exit c) => (w', Exit c)
    | (w', Panic p) => (w', Panic p)
    end.

Definition get {A : Type} (f : World -> A) : M A := fun w => (w, Done (f w)).
Definition modify (f : World -> World) : M unit := fun w => (f w, Done tt).
Definition os_Exit {A : Type} (code : Z) : M A := fun w => (w, Exit code).
Definition panic {A : Type} (msg : string) : M A := fun w => (w, Panic msg).

End Runtime.

Declare Scope go_scope.
Delimit Scope go_scope with go.
Notation "x <- c1 ;; c2" := (bind c1 (fun x => c2))
  (at level 61, c1 at next level, right associativity) : go_scope.
Notation "' pat <- c1 ;; c2" :=
  (bind c1 (fun x => match x with pat => c2 end))
  (at level 61, pat pattern, c1 at next level, right associativity) : go_scope.
Notation "c1 ;; c2" := (bind c1 (fun _ => c2))
  (at level 61, right associativity) : go_scope.

Local Open Scope go_scope.

(** ** Standard library calls the program makes *)

Section Library.
Context {E : Externals}.

(** [log.Print], [log.Printf] and [log.Println] append one line to the
    logger; the line is kept without the logger's time stamp. *)
Definition log_Print (line : string) : M unit := modify (add_log line).

(** [log.Fatalf] is [log.Printf] followed by [os.Exit(1)]. *)
Definition log_Fatalf {A : Type} (line : string) : M A :=
  log_Print line ;; os_Exit 1.

(** [template.Must] panics when the error is not nil. *)
Definition template_Must (r : result Template) : M Template :=
  match r with
  | Ok t => ret t
  | Err msg => panic msg
  end.

(** [go f()] for the two goroutines of the program. *)
Definition go (t : Task) : M unit := modify (add_task t).

(** [signal.Notify(stop, ...)]. *)
Definition signal_Notify (s : list Signal) : M unit := modify (add_notified s).

(** [kowalski.LoadWords] and the two lookups of its result, each leaving
    a mark in [provider]. *)
Definition LoadWords (path : string) : M (result Words) :=
  o <- get os ;;
  modify (add_call (CallLoadWords path)) ;;
  ret (kowalski_LoadWords o path).

Definition Anagrams (ws : Words) (input : string) : M (slice string) :=
  modify (add_call (CallAnagrams input)) ;;
  ret (Words_Anagrams ws input).

Definition Match (ws : Words) (input : string) : M (slice string) :=
  modify (add_call (CallMatch input)) ;;
  ret (Words_Match ws input).

(** *** net/http: requests and response writers *)

Record Request : Type := mkRequest {
  Method : string;
  RequestURI : string;
  RemoteAddr : string;
  URL_Path : string;
  Form : list (string * list string)   (* parsed query and body values *)
}.

(** [FormValue] is the first value of the named field, or the empty string. *)
Fixpoint first_value (key : string) (form : list (string * list string))
  : string :=
  match form with
  | [] => EmptyString
  | (k, vs) :: rest =>
      if String.eqb k key then
        match vs with
        | v :: _ => v
        | [] => EmptyString
        end
      else first_value key rest
  end.

Definition FormValue (r : Request) (key : string) : string :=
  first_value key (Form r).

(** A response writer: the header map, what went out as status line and
    header (once [WriteHeader] ran), and the body written so far. *)
Record ResponseWriter : Type := mkResponseWriter {
  header : list (string * string);
  sent : option (Z * list (string * string));
  body : string
}.

Definition newResponseWriter : ResponseWriter :=
  mkResponseWriter [] None EmptyString.

Definition Header_Add (w : ResponseWriter) (k v : string) : ResponseWriter :=
  mkResponseWriter (header w ++ [(k, v)]) (sent w) (body w).

(** Only the first [WriteHeader] counts. *)
Definition WriteHeader (w : ResponseWriter) (code : Z) : ResponseWriter :=
  match sent w with
  | Some _ => w
  | None => mkResponseWriter (header w) (Some (code, header w)) (body w)
  end.

(** A first write without status sends 200. *)
Definition Write_bytes (w : ResponseWriter) (b : string) : ResponseWriter :=
  let w' := WriteHeader w StatusOK in
  mkResponseWriter (header w') (sent w') (body w' ++ b).

Definition status (w : ResponseWriter) : option Z :=
  match sent w with
  | Some (code, _) => Some code
  | None => None
  end.

Definition sent_header (w : ResponseWriter) : list (string * string) :=
  match sent w with
  | Some (_, h) => h
  | None => []
  end.

Definition Handler : Type := ResponseWriter -> Request -> M ResponseWriter.

(** *** encoding/json on the two result structs

    Neither struct has field tags, so the keys are the Go field names.
    A nil slice encodes as [null], any other slice as an array. *)
Definition json_bool (b : bool) : string := if b then "true" else "false".

Definition json_strings (s : slice string) : string :=
  match s with
  | Nil => "null"
  | Slice l => "[" ++ String.concat "," (map json_string l) ++ "]"
  end.

Definition json_member (key value : string) : string :=
  dquote ++ key ++ dquote ++ ":" ++ value.

Definition json_object (members : list string) : string :=
  "{" ++ String.concat "," members ++ "}".

(** *** The process as the operating system sees it *)

(** Exit status once the goroutine running [main] is over: 0 when [main]
    returns, the argument of [os.Exit], 2 for a panic nobody recovers. *)
Definition exit_status {A : Type} (o : Outcome A) : Z :=
  match o with
  | Done _ => 0
  | Exit code => code
  | Panic _ => 2
  end.

(** A goroutine other than [main]: when it returns the process goes on;
    [os.Exit] and an unrecovered panic end the whole process. *)
Inductive Process : Type :=
| Running (w : World)
| Stopped (code : Z) (w : World).

Definition after_goroutine {A : Type} (r : World * Outcome A) : Process :=
  match r with
  | (w, Done _) => Running w
  | (w, Exit code) => Stopped code w
  | (w, Panic _) => Stopped 2 w
  end.

End Library.

(** ** Code that is the same in both variants *)

(** What a [select] of the reloader receives: a value from [watcher.Events]
    or from [watcher.Errors]; [ok] is false when the channel is closed. *)
Inductive Recv : Type :=
| RecvEvent (ok : bool)
| RecvError (err : string) (ok : bool).

(** How a run of the reloader over a finite schedule ends: it has
    returned, or it is waiting in [select] for the next message. *)
Inductive Loop : Type :=
| Returned
| Waiting.

Section Shared.
Context {E : Externals}.
Variable reloadTemplates : M unit.

Definition templateChanges : M unit :=
  o <- get os ;;
  match fsnotify_NewWatcher o with
  | Err _ => log_Print "Unable to create watcher"
  | Ok watcher =>
      match Watcher_Add o watcher (filepath_Join ["./templates"]) with
      | Some _ => log_Print "Unable to watch template folder"
      | None => ret tt
      end ;;
      go TemplateReloaderTask
  end.

(** The loop of [templateReloader], run over the messages it receives;
    each message comes with the state of the host at that moment. *)
Fixpoint templateReloader (schedule : list (OS * Recv)) : M Loop :=
  match schedule with
  | [] => ret Waiting
  | (o, m) :: rest =>
      modify (set_os o) ;;
      match m with
      | RecvEvent false => ret Returned
      | RecvEvent true => reloadTemplates ;; templateReloader rest
      | RecvError _ false => ret Returned
      | RecvError err true =>
          log_Print ("error: " ++ err) ;; templateReloader rest
      end
  end.

End Shared.

(** The tab character of the access-log formats. *)
Definition tab : string := String (ascii_of_nat 9) EmptyString.

(** ** The variant with one word list, loaded on every request *)

Module Single.

Record OutputArray : Type := mkOutputArray {
  OutputArray_Success : bool;
  OutputArray_Result : slice string
}.

Record OutputString : Type := mkOutputString {
  OutputString_Success : bool;
  OutputString_Result : string
}.

Section Program.
Context {E : Externals}.

Definition Marshal_OutputArray (o : OutputArray) : string :=
  json_object
    [json_member "Success" (json_bool (OutputArray_Success o));
     json_member "Result" (json_strings (OutputArray_Result o))].

Definition Marshal_OutputString (o : OutputString) : string :=
  json_object
    [json_member "Success" (json_bool (OutputString_Success o));
     json_member "Result" (json_string (OutputString_Result o))].

Definition reloadTemplates : M unit :=
  o <- get os ;;
  dir <- get (fun w => templateDirectory (flags w)) ;;
  t <- template_Must (template_ParseFiles o
         [filepath_Join [dir; "main.css"];
          filepath_Join [dir; "index.html"];
          filepath_Join [dir; "main.js"]]) ;;
  modify (set_templates (Some t)).

Definition templateReloader : list (OS * Recv) -> M Loop :=
  templateReloader reloadTemplates.

Definition requestLogger (targetMux : Handler) : Handler :=
  fun w r =>
    w' <- targetMux w r ;;
    let requesterIP := RemoteAddr r in
    log_Print (requesterIP ++ tab ++ tab ++ Method r ++ tab ++ tab
               ++ RequestURI r ++ tab) ;;
    ret w'.

Definition getResults (input : string) (function : string -> M (slice string))
  : M (string * Z) :=
  if (String.eqb input EmptyString || (len input >? 13))%bool then
    ret (Marshal_OutputString (mkOutputString false "Invalid input"),
         StatusBadRequest)
  else
    result <- function input ;;
    ret (Marshal_OutputArray (mkOutputArray (len_slice result >? 0) result),
         StatusOK).

Definition anagramHandler : Handler :=
  fun writer request =>
    let input := FormValue request "input" in
    path <- get (fun w => wordList (flags w)) ;;
    loaded <- LoadWords path ;;
    match loaded with
    | Err err =>
        log_Print ("Unable to load words: " ++ err) ;;
        let writer := WriteHeader writer StatusInternalServerError in
        ret (Write_bytes writer "Unable to load wordlist")
    | Ok words =>
        let writer := Header_Add writer "Content-Type" "application/json" in
        '(outputBytes, outputStatus) <- getResults input (Anagrams words) ;;
        let writer := WriteHeader writer outputStatus in
        ret (Write_bytes writer outputBytes)
    end.

Definition matchHandler : Handler :=
  fun writer request =>
    let input := FormValue request "input" in
    path <- get (fun w => wordList (flags w)) ;;
    loaded <- LoadWords path ;;
    match loaded with
    | Err err =>
        log_Print ("Unable to load words: " ++ err) ;;
        let writer := WriteHeader writer StatusInternalServerError in
        ret (Write_bytes writer "Unable to load wordlist")
    | Ok words =>
        let writer := Header_Add writer "Content-Type" "application/json" in
        '(outputBytes, outputStatus) <- getResults input (Match words) ;;
        let writer := WriteHeader writer outputStatus in
        ret (Write_bytes writer outputBytes)
    end.

(** [main], along a run in which a signal reaches [stop]; [shutdown] is
    what [server.Shutdown] then returns ([None] is a nil error). *)
Definition main (shutdown : option string) : M unit :=
  o <- get os ;;
  f <- get flags ;;
  match envflag_Parse o f with
  | Err err => log_Fatalf ("Unable to parse flags: " ++ err)
  | Ok f' => modify (set_flags f')
  end ;;
  reloadTemplates ;;
  templateChanges ;;
  log_Print "Starting server." ;;
  go (ListenAndServeTask ":8080" ["/"; "/css"; "/js"; "/anagram"; "/match"]) ;;
  signal_Notify [os_Interrupt; os_Kill] ;;
  match shutdown with
  | Some err => log_Fatalf ("Unable to shutdown: " ++ err)
  | None => log_Print "Finishing server."
  end.

End Program.
End Single.

(** ** The variant with a directory of word lists, loaded at start-up *)

Module Multiplex.

Section Program.
Context {E : Externals}.

(** [loadWords] and [downloadFlags] are defined in files of the package
    that are not among the sources at hand.  [loadWords] is taken as a
    function of the host that returns the handles or ends the process;
    [downloadFlags] as any action. *)
Variable loadWords : OS -> string -> Outcome (list SpellChecker).
Variable downloadFlags : M unit.

Definition reloadTemplates : M unit :=
  o <- get os ;;
  dir <- get (fun w => templateDirectory (flags w)) ;;
  t <- template_Must (template_ParseFiles o
         [filepath_Join [dir; "index.html"]]) ;;
  modify (set_templates (Some t)).

Definition templateReloader : list (OS * Recv) -> M Loop :=
  templateReloader reloadTemplates.

Definition requestLogger (targetMux : Handler) : Handler :=
  fun w r =>
    w' <- targetMux w r ;;
    let requesterIP := RemoteAddr r in
    log_Print (requesterIP ++ "  " ++ tab ++ Method r ++ "  " ++ tab
               ++ RequestURI r) ;;
    ret w'.

(** [main], along a run in which a signal reaches [stop]; [shutdown] is
    what [server.Shutdown] then returns ([None] is a nil error). *)
Definition main (shutdown : option string) : M unit :=
  o <- get os ;;
  f <- get flags ;;
  match envflag_Parse o f with
  | Err err => log_Fatalf ("Unable to parse flags: " ++ err)
  | Ok f' => modify (set_flags f')
  end ;;
  d <- get (fun w => download (flags w)) ;;
  if d then downloadFlags
  else
    log_Print "Loading wordlist." ;;
    path <- get (fun w => wordList (flags w)) ;;
    ws <- (fun w => (w, loadWords o path)) ;;
    modify (set_words ws) ;;
    log_Print "Loading templates." ;;
    reloadTemplates ;;
    templateChanges ;;
    log_Print "Starting server." ;;
    go (ListenAndServeTask ":8080"
          ["/static/"; "/favicon.ico"; "/"; "/anagram"; "/match";
           "/exifUpload"]) ;;
    signal_Notify [os_Interrupt; os_Kill] ;;
    match shutdown with
    | Some err => log_Fatalf ("Unable to shutdown: " ++ err)
    | None => log_Print "Finishing server."
    end.

End Program.
End Multiplex.

(** ** Pages rendered from the template set *)

(** [ExecuteTemplate] of [html/template] is not part of the repository:
    for a template set, a template name and the data handed over it gives
    the chunks it writes to the writer, in order, and the error it
    returns ([None] is nil).  The data is [nil] ([None]) or a string. *)
Class TemplateEngine {E : Externals} : Type := {
  Template_Execute :
    Template -> string -> option string -> list string * option string
}.

Section Pages.
Context {E : Externals} {T : TemplateEngine}.

(** [Header().Set]: the value replaces what the key had. *)
Definition Header_Set (w : ResponseWriter) (k v : string) : ResponseWriter :=
  mkResponseWriter
    (filter (fun kv => negb (String.eqb (fst kv) k)) (header w) ++ [(k, v)])
    (sent w) (body w).

(** [templates.ExecuteTemplate(writer, name, data)]: a nil [templates]
    is a nil pointer dereference; otherwise every chunk goes through the
    writer's [Write]. *)
Definition ExecuteTemplate (writer : ResponseWriter) (name : string)
    (data : option string) : M (ResponseWriter * option string) :=
  current <- get templates ;;
  match current with
  | None => panic "invalid memory address or nil pointer dereference"
  | Some t =>
      let (chunks, err) := Template_Execute t name data in
      ret (fold_left Write_bytes chunks writer, err)
  end.

(** [cssHandler] and [jsHandler] exist in the single-list variant only. *)
Definition cssHandler : Handler :=
  fun writer _ =>
    let writer := Header_Set writer "Content-Type" "text/css; charset=utf-8" in
    '(writer, err) <- ExecuteTemplate writer "main.css" None ;;
    match err with
    | Some e =>
        log_Print ("Fucked up: " ++ e) ;;
        ret (WriteHeader writer StatusInternalServerError)
    | None => ret writer
    end.

Definition jsHandler : Handler :=
  fun writer _ =>
    let writer :=
      Header_Set writer "Content-Type"
        "application/javascript; charset=utf-8" in
    '(writer, err) <- ExecuteTemplate writer "main.js" None ;;
    match err with
    | Some e =>
        log_Print ("Fucked up: " ++ e) ;;
        ret (WriteHeader writer StatusInternalServerError)
    | None => ret writer
    end.

(** [indexHandler] is the same in both variants. *)
Definition indexHandler : Handler :=
  fun writer request =>
    if String.eqb (URL_Path request) "/" then
      '(writer, err) <- ExecuteTemplate writer "index.html"
                          (Some EmptyString) ;;
      match err with
      | Some e =>
          log_Print ("Fucked up: " ++ e) ;;
          ret (WriteHeader writer StatusInternalServerError)
      | None => ret writer
      end
    else ret (WriteHeader writer StatusNotFound).

End Pages.

(** ** The handlers of the multiplexed variant *)

(** [defer f()]: [f] runs when the function returns and when a panic
    unwinds it, not when the process is left through [os.Exit]; a panic
    of [f] itself replaces the one under way. *)
Definition defer {E : Externals} {A B : Type} (f : M B) (fn : M A) : M A :=
  fun w =>
    match fn w with
    | (w', Done a) =>
        match f w' with
        | (w'', Done _) => (w'', Done a)
        | (w'', Exit code) => (w'', Exit code)
        | (w'', Panic p) => (w'', Panic p)
        end
    | (w', Exit code) => (w', Exit code)
    | (w', Panic p) =>
        match f w' with
        | (w'', Done _) => (w'', Panic p)
        | (w'', Exit code) => (w'', Exit code)
        | (w'', Panic p') => (w'', Panic p')
        end
    end.

Module MultiplexHandlers.

Section Program.
Context {E : Externals}.

(** [getResults] and [getImageResults] are defined in files of the
    package that are not among the sources at hand, and so are taken as
    parameters, with the two kowalski multiplexers they are handed, the
    uploaded file of [request.FormFile] and its [Close]. *)
Variable Multiplexer : Type.
Variable kowalski_MultiplexAnagram : Multiplexer.
Variable kowalski_MultiplexMatch : Multiplexer.
Variable getResults :
  list SpellChecker -> string -> Multiplexer -> M (string * Z).

Variable File : Type.
Variable FormFile : Request -> string -> result File.
Variable File_Close : File -> M (option string).
Variable getImageResults : File -> M (string * Z).

Definition anagramHandler : Handler :=
  fun writer request =>
    let input := FormValue request "input" in
    let writer := Header_Add writer "Content-Type" "application/json" in
    ws <- get words ;;
    '(outputBytes, outputStatus) <-
       getResults ws input kowalski_MultiplexAnagram ;;
    let writer := WriteHeader writer outputStatus in
    ret (Write_bytes writer outputBytes).

Definition matchHandler : Handler :=
  fun writer request =>
    let input := FormValue request "input" in
    let writer := Header_Add writer "Content-Type" "application/json" in
    ws <- get words ;;
    '(outputBytes, outputStatus) <-
       getResults ws input kowalski_MultiplexMatch ;;
    let writer := WriteHeader writer outputStatus in
    ret (Write_bytes writer outputBytes).

Definition exifUpload : Handler :=
  fun writer request =>
    match FormFile request "exifFile" with
    | Err err =>
        let writer := WriteHeader writer StatusInternalServerError in
        let writer := Write_bytes writer "Error" in
        log_Print ("Error Getting File " ++ err) ;;
        ret writer
    | Ok file =>
        defer (File_Close file)
          ('(outputBytes, outputStatus) <- getImageResults file ;;
           let writer := WriteHeader writer outputStatus in
           ret (Write_bytes writer outputBytes))
    end.

End Program.
End MultiplexHandlers.

(** ** Signals and the bounded shutdown *)









(** The server at the moment [Shutdown] is called: the error closing its
    listeners gives ([None] is nil), and the time from then until its
    last connection is idle ([None]: never). *)
Record ServerState : Type := mkServerState {
  listeners_close_error : option string;
  idle_after : option Z
}.




(** ** Observing a handler *)

Section Observation.
Context {E : Externals}.

(** The response a handler leaves on a fresh writer, when it returns. *)
Definition served (h : Handler) (r : Request) (w : World)
  : option ResponseWriter :=
  match h newResponseWriter r w with
  | (_, Done rw) => Some rw
  | (_, _) => None
  end.

(** The world a handler leaves behind. *)
Definition world_after (h : Handler) (r : Request) (w : World) : World :=
  fst (h newResponseWriter r w).

(** A response with the JSON content type, a status and a body. *)
Definition json_response (code : Z) (bytes : string) : ResponseWriter :=
  mkResponseWriter [("Content-Type", "application/json")]
    (Some (code, [("Content-Type", "application/json")])) bytes.

(** A response with no header set by the handler. *)
Definition plain_response (code : Z) (bytes : string) : ResponseWriter :=
  mkResponseWriter [] (Some (code, [])) bytes.

(** The two classes of input lengths of the lookup endpoints. *)
Definition invalid_length (input : string) : Prop :=
  len input = 0 \/ 14 <= len input.

Definition valid_length (input : string) : Prop :=
  1 <= len input <= 13.

(** The files each variant hands to [template.ParseFiles]. *)
Definition single_template_files (dir : string) : list string :=
  [filepath_Join [dir; "main.css"];
   filepath_Join [dir; "index.html"];
   filepath_Join [dir; "main.js"]].

Definition multiplex_template_files (dir : string) : list string :=
  [filepath_Join [dir; "index.html"]].

(** [sub] occurs in [s]. *)
Definition occurs_in (sub s : string) : Prop :=
  exists before after, s = before ++ sub ++ after.

End Observation.

(** The bytes of the two fixed bodies. *)
Definition invalid_input_body : string :=
  "{" ++ dquote ++ "Success" ++ dquote ++ ":false," ++ dquote ++ "Result"
  ++ dquote ++ ":" ++ dquote ++ "Invalid input" ++ dquote ++ "}".

Definition no_candidates_array_body : string :=
  "{" ++ dquote ++ "Success" ++ dquote ++ ":false," ++ dquote ++ "Result"
  ++ dquote ++ ":[]}".

Definition no_candidates_null_body : string :=
  "{" ++ dquote ++ "Success" ++ dquote ++ ":false," ++ dquote ++ "Result"
  ++ dquote ++ ":null}".

(** ** A small host to run the program on

    A host described by four switches, a word list that knows the anagrams
    of one word, and a string encoder that only quotes. *)

Record DemoHost : Type := mkDemoHost {
  words_readable : bool;
  templates_parse : bool;
  watcher_available : bool;
  directory_watchable : bool
}.

Definition demo_anagrams (input : string) : slice string :=
  if String.eqb input "listen"
  then Slice ["enlist"; "inlets"; "silent"; "tinsel"]
  else Nil.

Definition demo_match (input : string) : slice string :=
  if String.eqb input "c?t" then Slice ["cat"; "cot"; "cut"] else Slice [].

#[local] Instance demo : Externals := {|
  OS := DemoHost;
  envflag_Parse := fun _ f => Ok f;
  Words := unit;
  kowalski_LoadWords := fun o _ =>
    if words_readable o then Ok tt else Err "no such file or directory";
  Words_Anagrams := fun _ => demo_anagrams;
  Words_Match := fun _ => demo_match;
  Template := list string;
  template_ParseFiles := fun o files =>
    if templates_parse o then Ok files else Err "unexpected EOF";
  filepath_Join := String.concat "/";
  Watcher := unit;
  fsnotify_NewWatcher := fun o =>
    if watcher_available o then Ok tt else Err "too many open files";
  Watcher_Add := fun o _ _ =>
    if directory_watchable o then None else Some "no such file or directory";
  SpellChecker := unit;
  json_string := fun s => dquote ++ s ++ dquote;
  json_string_safe := fun s _ => eq_refl
|}.

Definition default_flags : Flags :=
  mkFlags "/app/wordlist.txt" "/app/templates" false.

Definition demo_world (o : DemoHost) (t : option (list string)) : World :=
  mkWorld o default_flags t [] [] [] [] [].

Definition healthy : DemoHost := mkDemoHost true true true true.
Definition no_word_list : DemoHost := mkDemoHost false true true true.
Definition broken_templates : DemoHost := mkDemoHost true false true true.
Definition no_watcher : DemoHost := mkDemoHost true true false true.
Definition unwatchable : DemoHost := mkDemoHost true true true false.

(** A host in good order and one without its word list, before start-up;
    a host that has served for a while with an older template set. *)
Definition fresh : World := demo_world healthy None.
Definition offline : World := demo_world no_word_list None.
Definition serving : World :=
  demo_world healthy (Some ["/app/templates/index.html"]).

Definition demo_loadWords (o : DemoHost) (dir : string)
  : Outcome (list unit) :=
  if words_readable o then Done [tt; tt] else Exit 1.

Definition demo_request (path input : string) : Request :=
  mkRequest "GET" (path ++ "?input=" ++ input) "192.0.2.7:51234" path
    [("input", [input])].

(** A template engine for the small host: [index.html] renders in two
    chunks when it is part of the set and breaks off after one when only
    a draft is; [main.css] fails before it writes anything, [main.js]
    after a first chunk. *)
Definition demo_execute (t : list string) (name : string)
    (data : option string) : list string * option string :=
  if String.eqb name "index.html" then
    if existsb (String.eqb "/app/templates/index.html") t
    then (["<html>"; "</html>"], None)
    else if existsb (String.eqb "/app/templates/draft.html") t
    then (["<html>"], Some "unexpected EOF")
    else ([], Some "no such template")
  else if String.eqb name "main.css" then ([], Some "no such template")
  else (["var words"], Some "unexpected token").

#[local] Instance demo_engine : TemplateEngine := {|
  Template_Execute := demo_execute
|}.

(** An upload whose file name is the value of the form field, a file
    whose closing is logged, and an image reader that knows one file and
    panics on any other. *)
Definition demo_FormFile (r : Request) (field : string) : result string :=
  if String.eqb (first_value field (Form r)) EmptyString
  then Err "http: no such file"
  else Ok (first_value field (Form r)).

Definition demo_Close (file : string) : M (option string) :=
  log_Print ("closed " ++ file) ;; ret None.

Definition demo_getImageResults (file : string) : M (string * Z) :=
  if String.eqb file "photo.jpg" then ret ("{}", StatusOK)
  else panic "unreadable image".

Definition upload_request (file : string) : Request :=
  mkRequest "POST" "/exifUpload" "192.0.2.7:51234" "/exifUpload"
    [("exifFile", [file])].

(** Worlds with a template set that lacks the index page, and with one
    that holds a draft of it; a request that carries no field; a world
    started in download mode. *)
Definition without_index : World :=
  demo_world healthy (Some ["/app/templates/main.css"]).
Definition with_draft : World :=
  demo_world healthy (Some ["/app/templates/draft.html"]).
Definition bare_request (path : string) : Request :=
  mkRequest "GET" path "192.0.2.7:51234" path [].
Definition download_world : World :=
  mkWorld healthy (mkFlags "/app/wordlists" "/app/templates" true)
    None [] [] [] [] [].

(** The small host again, with a command line that does not parse. *)
Definition demo_bad_flags : Externals := {|
  OS := DemoHost;
  envflag_Parse := fun _ _ => Err "flag provided but not defined: -x";
  Words := unit;
  kowalski_LoadWords := fun o _ =>
    if words_readable o then Ok tt else Err "no such file or directory";
  Words_Anagrams := fun _ => demo_anagrams;
  Words_Match := fun _ => demo_match;
  Template := list string;
  template_ParseFiles := fun o files =>
    if templates_parse o then Ok files else Err "unexpected EOF";
  filepath_Join := String.concat "/";
  Watcher := unit;
  fsnotify_NewWatcher := fun o =>
    if watcher_available o then Ok tt else Err "too many open files";
  Watcher_Add := fun o _ _ =>
    if directory_watchable o then None else Some "no such file or directory";
  SpellChecker := unit;
  json_string := fun s => dquote ++ s ++ dquote;
  json_string_safe := fun s _ => eq_refl
|}.

Definition bad_flags_world : @World demo_bad_flags :=
  @mkWorld demo_bad_flags healthy default_flags None [] [] [] [] [].


(** The small host with a template directory that holds [index.html]
    and nothing else: the one file of the multiplexed variant parses,
    the three files of the single-list variant do not. *)
Definition parse_index_only (files : list string) : result (list string) :=
  match files with
  | [f] =>
      if String.eqb f "/app/templates/index.html" then Ok files
      else Err "open: no such file or directory"
  | _ => Err "open /app/templates/main.css: no such file or directory"
  end.

Definition demo_index_only : Externals := {|
  OS := DemoHost;
  envflag_Parse := fun _ f => Ok f;
  Words := unit;
  kowalski_LoadWords := fun o _ =>
    if words_readable o then Ok tt else Err "no such file or directory";
  Words_Anagrams := fun _ => demo_anagrams;
  Words_Match := fun _ => demo_match;
  Template := list string;
  template_ParseFiles := fun _ files => parse_index_only files;
  filepath_Join := String.concat "/";
  Watcher := unit;
  fsnotify_NewWatcher := fun o =>
    if watcher_available o then Ok tt else Err "too many open files";
  Watcher_Add := fun o _ _ =>
    if directory_watchable o then None else Some "no such file or directory";
  SpellChecker := unit;
  json_string := fun s => dquote ++ s ++ dquote;
  json_string_safe := fun s _ => eq_refl
|}.

Definition index_only_world (t : option (list string))
  : @World demo_index_only :=
  @mkWorld demo_index_only healthy default_flags t [] [] [] [] [].

(** That host after an error from the watcher and a reload. *)
Definition index_only_reloaded : @World demo_index_only :=
  @mkWorld demo_index_only healthy default_flags
    (Some ["/app/templates/index.html"]) [] ["error: queue overflow"]
    [] [] [].

Definition stuck_server : ServerState := mkServerState None None.

(** The chunks of a rendering, put end to end. *)
Definition join (chunks : list string) : string :=
  fold_right append EmptyString chunks.

(** What one call of [reloadTemplates] can do: panic and leave the world
    alone, or store a template set and return. *)
Definition reloads {E : Externals} (reload : M unit) : Prop :=
  forall w,
    (exists msg, reload w = (w, Panic msg))
    \/ (exists t, reload w = (set_templates (Some t) w, Done tt)).

(** The fields no reloader and no watch set-up writes. *)
Definition same_configuration {E : Externals} (w w' : World) : Prop :=
  flags w' = flags w /\ words w' = words w /\ provider w' = provider w
  /\ notified w' = notified w.

(** A message that reports a closed channel. *)
Definition closed (m : Recv) : Prop :=
  m = RecvEvent false \/ exists err, m = RecvError err false.

(** * Properties *)

(** ** Running the monad *)

Section MonadFacts.
Context {E : Externals}.

Lemma bind_Done {A B : Type} (m : M A) (k : A -> M B) (w w' : World) (a : A) :
  m w = (w', Done a) -> bind m k w = k a w'.
Proof. intros H. unfold bind. rewrite H. reflexivity. Qed.

Lemma bind_Exit {A B : Type} (m : M A) (k : A -> M B) (w w' : World) code :
  m w = (w', Exit code) -> bind m k w = (w', Exit code).
Proof. intros H. unfold bind. rewrite H. reflexivity. Qed.

Lemma bind_Panic {A B : Type} (m : M A) (k : A -> M B) (w w' : World) msg :
  m w = (w', Panic msg) -> bind m k w = (w', Panic msg).
Proof. intros H. unfold bind. rewrite H. reflexivity. Qed.

Lemma len_nonneg (s : string) : 0 <= len s.
Proof. unfold len. lia. Qed.

Lemma len_zero_empty (s : string) : len s = 0 -> s = EmptyString.
Proof.
  destruct s as [|c s]; [reflexivity|].
  unfold len. cbn [String.length]. lia.
Qed.

End MonadFacts.

(** Unfold the monad operations down to state passing. *)
Ltac run_go :=
  cbv [bind get modify ret log_Print log_Fatalf os_Exit panic go
       signal_Notify LoadWords template_Must].

(** ** The validator and encoder, [getResults] *)

Section GetResults.
Context {E : Externals}.

Lemma guard_invalid (input : string) :
  invalid_length input ->
  (String.eqb input EmptyString || (len input >? 13))%bool = true.
Proof.
  intros [H | H].
  - rewrite (len_zero_empty _ H). reflexivity.
  - apply orb_true_iff. right. apply Z.gtb_lt. lia.
Qed.

Lemma guard_valid (input : string) :
  valid_length input ->
  (String.eqb input EmptyString || (len input >? 13))%bool = false.
Proof.
  intros [Hlo Hhi]. apply orb_false_iff. split.
  - apply String.eqb_neq. intros ->. unfold len in Hlo. cbn in Hlo. lia.
  - destruct (Z.gtb_spec (len input) 13); [lia | reflexivity].
Qed.

Lemma invalid_or_valid (input : string) :
  invalid_length input \/ valid_length input.
Proof.
  unfold invalid_length, valid_length. pose proof (len_nonneg input). lia.
Qed.

Lemma Marshal_invalid_input :
  Single.Marshal_OutputString (Single.mkOutputString false "Invalid input")
  = invalid_input_body.
Proof.
  unfold Single.Marshal_OutputString.
  cbn [Single.OutputString_Result Single.OutputString_Success].
  rewrite json_string_safe by reflexivity. reflexivity.
Qed.

(** On an input of invalid length [getResults] answers without running
    the lookup it was given: the world is the one it started in. *)
Lemma getResults_invalid (input : string) (function : string -> M (slice string))
    (w : World) :
  invalid_length input ->
  Single.getResults input function w
  = (w, Done (invalid_input_body, StatusBadRequest)).
Proof.
  intros H. unfold Single.getResults. rewrite (guard_invalid _ H).
  rewrite Marshal_invalid_input. reflexivity.
Qed.

Lemma getResults_valid (input : string) (function : string -> M (slice string))
    (w w1 : World) (res : slice string) :
  valid_length input ->
  function input w = (w1, Done res) ->
  Single.getResults input function w
  = (w1, Done (Single.Marshal_OutputArray
                 (Single.mkOutputArray (len_slice res >? 0) res),
               StatusOK)).
Proof.
  intros H Hf. unfold Single.getResults. rewrite (guard_valid _ H).
  rewrite (bind_Done _ _ _ _ _ Hf). reflexivity.
Qed.


Lemma Marshal_OutputString_nonempty (o : Single.OutputString) :
  Single.Marshal_OutputString o <> EmptyString.
Proof. unfold Single.Marshal_OutputString, json_object. discriminate. Qed.

Lemma Marshal_empty_slice :
  Single.Marshal_OutputArray
    (Single.mkOutputArray (len_slice (Slice (@nil string)) >? 0) (Slice []))
  = no_candidates_array_body.
Proof. reflexivity. Qed.

Lemma Marshal_nil_slice :
  Single.Marshal_OutputArray
    (Single.mkOutputArray (len_slice (@Nil string) >? 0) Nil)
  = no_candidates_null_body.
Proof. reflexivity. Qed.

End GetResults.

(** ** The lookup handlers of the single-list variant *)

Section LookupHandlers.
Context {E : Externals}.

Lemma anagramHandler_loaded (r : Request) (w : World) (ws : Words) :
  kowalski_LoadWords (os w) (wordList (flags w)) = Ok ws ->
  Single.anagramHandler newResponseWriter r w
  = bind (Single.getResults (FormValue r "input") (Anagrams ws))
      (fun p => ret (Write_bytes
                       (WriteHeader
                          (Header_Add newResponseWriter "Content-Type"
                             "application/json") (snd p)) (fst p)))
      (add_call (CallLoadWords (wordList (flags w))) w).
Proof.
  intros H. unfold Single.anagramHandler. run_go. rewrite H.
  destruct (Single.getResults _ _ _) as [w' [[out code] | c | p]]; reflexivity.
Qed.

Lemma matchHandler_loaded (r : Request) (w : World) (ws : Words) :
  kowalski_LoadWords (os w) (wordList (flags w)) = Ok ws ->
  Single.matchHandler newResponseWriter r w
  = bind (Single.getResults (FormValue r "input") (Match ws))
      (fun p => ret (Write_bytes
                       (WriteHeader
                          (Header_Add newResponseWriter "Content-Type"
                             "application/json") (snd p)) (fst p)))
      (add_call (CallLoadWords (wordList (flags w))) w).
Proof.
  intros H. unfold Single.matchHandler. run_go. rewrite H.
  destruct (Single.getResults _ _ _) as [w' [[out code] | c | p]]; reflexivity.
Qed.

Lemma anagramHandler_not_loaded (r : Request) (w : World) (err : string) :
  kowalski_LoadWords (os w) (wordList (flags w)) = Err err ->
  Single.anagramHandler newResponseWriter r w
  = (add_log ("Unable to load words: " ++ err)
       (add_call (CallLoadWords (wordList (flags w))) w),
     Done (plain_response StatusInternalServerError "Unable to load wordlist")).
Proof.
  intros H. unfold Single.anagramHandler. run_go. rewrite H. reflexivity.
Qed.

Lemma matchHandler_not_loaded (r : Request) (w : World) (err : string) :
  kowalski_LoadWords (os w) (wordList (flags w)) = Err err ->
  Single.matchHandler newResponseWriter r w
  = (add_log ("Unable to load words: " ++ err)
       (add_call (CallLoadWords (wordList (flags w))) w),
     Done (plain_response StatusInternalServerError "Unable to load wordlist")).
Proof.
  intros H. unfold Single.matchHandler. run_go. rewrite H. reflexivity.
Qed.

End LookupHandlers.

(** ** Claims about the lookup endpoints *)

Section LookupClaims.
Context {E : Externals}.

(** C1, as the code has it.  A request to /anagram or /match whose input
    has length 0 or at least 14 is answered with status 400, the JSON
    content type and the body [{"Success":false,"Result":"Invalid input"}],
    whenever the word list of that request could be loaded; [getResults]
    itself gives this body and status for every such input, whatever the
    lookup and the world. *)
Theorem invalid_input_bad_request (r : Request) (w : World) (ws : Words) :
  kowalski_LoadWords (os w) (wordList (flags w)) = Ok ws ->
  invalid_length (FormValue r "input") ->
  served Single.anagramHandler r w
  = Some (json_response StatusBadRequest invalid_input_body)
  /\ served Single.matchHandler r w
     = Some (json_response StatusBadRequest invalid_input_body)
  /\ (forall function w0,
        Single.getResults (FormValue r "input") function w0
        = (w0, Done (invalid_input_body, StatusBadRequest))).
Proof.
  intros Hload Hlen. repeat split.
  - unfold served. rewrite (anagramHandler_loaded _ _ _ Hload).
    erewrite bind_Done by (apply getResults_invalid; exact Hlen).
    reflexivity.
  - unfold served. rewrite (matchHandler_loaded _ _ _ Hload).
    erewrite bind_Done by (apply getResults_invalid; exact Hlen).
    reflexivity.
  - intros function w0. apply getResults_invalid. exact Hlen.
Qed.

(** C2, as the code has it.  A request whose input has length 1 to 13 is
    answered, whenever the word list of that request could be loaded, with
    status 200 and the encoding of [{Success: len(result) > 0, Result:
    result}], result being what the lookup returned.  A sequence without
    candidates gives [Success] false and status 200 in both its forms: the
    empty slice is written as an empty array, the nil slice as [null]. *)
Theorem valid_input_ok (r : Request) (w : World) (ws : Words) :
  kowalski_LoadWords (os w) (wordList (flags w)) = Ok ws ->
  valid_length (FormValue r "input") ->
  served Single.anagramHandler r w
  = Some (json_response StatusOK
            (Single.Marshal_OutputArray
               (Single.mkOutputArray
                  (len_slice (Words_Anagrams ws (FormValue r "input")) >? 0)
                  (Words_Anagrams ws (FormValue r "input")))))
  /\ served Single.matchHandler r w
     = Some (json_response StatusOK
               (Single.Marshal_OutputArray
                  (Single.mkOutputArray
                     (len_slice (Words_Match ws (FormValue r "input")) >? 0)
                     (Words_Match ws (FormValue r "input")))))
  /\ Single.Marshal_OutputArray
       (Single.mkOutputArray (len_slice (Slice (@nil string)) >? 0) (Slice []))
     = no_candidates_array_body
  /\ Single.Marshal_OutputArray
       (Single.mkOutputArray (len_slice (@Nil string) >? 0) Nil)
     = no_candidates_null_body.
Proof.
  intros Hload Hlen. repeat split.
  - unfold served. rewrite (anagramHandler_loaded _ _ _ Hload).
    erewrite bind_Done
      by (apply getResults_valid; [exact Hlen | reflexivity]).
    reflexivity.
  - unfold served. rewrite (matchHandler_loaded _ _ _ Hload).
    erewrite bind_Done
      by (apply getResults_valid; [exact Hlen | reflexivity]).
    reflexivity.
Qed.

(** C3, as the code has it.  On an input of invalid length neither lookup
    runs: the handler's only call into the word data provider is the load
    of the word list, made before the input is validated, and [getResults]
    leaves the world as it found it, whatever lookup it was handed. *)
Theorem invalid_input_provider_calls (r : Request) (w : World) :
  invalid_length (FormValue r "input") ->
  provider (world_after Single.anagramHandler r w)
  = (provider w ++ [CallLoadWords (wordList (flags w))])%list
  /\ provider (world_after Single.matchHandler r w)
     = (provider w ++ [CallLoadWords (wordList (flags w))])%list
  /\ (forall function w0,
        fst (Single.getResults (FormValue r "input") function w0) = w0).
Proof.
  intros Hlen. unfold world_after. repeat split.
  - destruct (kowalski_LoadWords (os w) (wordList (flags w))) as [ws | err]
      eqn:Hload.
    + rewrite (anagramHandler_loaded _ _ _ Hload).
      erewrite bind_Done by (apply getResults_invalid; exact Hlen).
      reflexivity.
    + rewrite (anagramHandler_not_loaded _ _ _ Hload). reflexivity.
  - destruct (kowalski_LoadWords (os w) (wordList (flags w))) as [ws | err]
      eqn:Hload.
    + rewrite (matchHandler_loaded _ _ _ Hload).
      erewrite bind_Done by (apply getResults_invalid; exact Hlen).
      reflexivity.
    + rewrite (matchHandler_not_loaded _ _ _ Hload). reflexivity.
  - intros function w0. rewrite (getResults_invalid _ _ _ Hlen). reflexivity.
Qed.

(** C4, as the code has it.  When the word list cannot be loaded the
    handler answers with status 500 and the plain bytes
    [Unable to load wordlist], sets no header, runs no lookup, and writes
    the cause to the log and nowhere else. *)
Theorem load_failure_response (r : Request) (w : World) (err : string) :
  kowalski_LoadWords (os w) (wordList (flags w)) = Err err ->
  served Single.anagramHandler r w
  = Some (plain_response StatusInternalServerError "Unable to load wordlist")
  /\ served Single.matchHandler r w
     = Some (plain_response StatusInternalServerError
               "Unable to load wordlist")
  /\ world_after Single.anagramHandler r w
     = add_log ("Unable to load words: " ++ err)
         (add_call (CallLoadWords (wordList (flags w))) w)
  /\ world_after Single.matchHandler r w
     = add_log ("Unable to load words: " ++ err)
         (add_call (CallLoadWords (wordList (flags w))) w).
Proof.
  intros Hload. unfold served, world_after.
  rewrite (anagramHandler_not_loaded _ _ _ Hload).
  rewrite (matchHandler_not_loaded _ _ _ Hload).
  repeat split.
Qed.




End LookupClaims.

(** ** Template loading and the reloader task *)

Section Templates.
Context {E : Externals}.

Lemma single_reload_fails (w : World) (msg : string) :
  template_ParseFiles (os w)
    (single_template_files (templateDirectory (flags w))) = Err msg ->
  Single.reloadTemplates w = (w, Panic msg).
Proof.
  intros H. unfold Single.reloadTemplates. run_go.
  unfold single_template_files in H. rewrite H. reflexivity.
Qed.

Lemma single_reload_succeeds (w : World) (t : Template) :
  template_ParseFiles (os w)
    (single_template_files (templateDirectory (flags w))) = Ok t ->
  Single.reloadTemplates w = (set_templates (Some t) w, Done tt).
Proof.
  intros H. unfold Single.reloadTemplates. run_go.
  unfold single_template_files in H. rewrite H. reflexivity.
Qed.

Lemma multiplex_reload_fails (w : World) (msg : string) :
  template_ParseFiles (os w)
    (multiplex_template_files (templateDirectory (flags w))) = Err msg ->
  Multiplex.reloadTemplates w = (w, Panic msg).
Proof.
  intros H. unfold Multiplex.reloadTemplates. run_go.
  unfold multiplex_template_files in H. rewrite H. reflexivity.
Qed.

Lemma multiplex_reload_succeeds (w : World) (t : Template) :
  template_ParseFiles (os w)
    (multiplex_template_files (templateDirectory (flags w))) = Ok t ->
  Multiplex.reloadTemplates w = (set_templates (Some t) w, Done tt).
Proof.
  intros H. unfold Multiplex.reloadTemplates. run_go.
  unfold multiplex_template_files in H. rewrite H. reflexivity.
Qed.

(** One turn of the loop on a change event. *)
Lemma templateReloader_event (reload : M unit) (o : OS)
    (rest : list (OS * Recv)) (w : World) :
  templateReloader reload ((o, RecvEvent true) :: rest) w
  = bind reload (fun _ => templateReloader reload rest) (set_os o w).
Proof. reflexivity. Qed.

Lemma templateReloader_error (reload : M unit) (o : OS) (err : string)
    (rest : list (OS * Recv)) (w : World) :
  templateReloader reload ((o, RecvError err true) :: rest) w
  = templateReloader reload rest (add_log ("error: " ++ err) (set_os o w)).
Proof. reflexivity. Qed.

Lemma templateReloader_closed (reload : M unit) (o : OS) (m : Recv)
    (rest : list (OS * Recv)) (w : World) :
  m = RecvEvent false \/ (exists err, m = RecvError err false) ->
  templateReloader reload ((o, m) :: rest) w = (set_os o w, Done Returned).
Proof. intros [-> | [err ->]]; reflexivity. Qed.

(** A change event whose parse succeeds swaps the template set and the
    loop goes on with the next message. *)
Lemma single_reloader_swaps (o : OS) (rest : list (OS * Recv)) (w : World)
    (t : Template) :
  template_ParseFiles o
    (single_template_files (templateDirectory (flags w))) = Ok t ->
  Single.templateReloader ((o, RecvEvent true) :: rest) w
  = Single.templateReloader rest (set_templates (Some t) (set_os o w)).
Proof.
  intros H. unfold Single.templateReloader. rewrite templateReloader_event.
  erewrite bind_Done by (apply single_reload_succeeds; exact H).
  reflexivity.
Qed.

(** C5, as the code has it.  When a change event arrives and the template
    files of a variant do not parse, its [reloadTemplates] panics before it
    assigns [templates]; the reloader does not recover, so the process
    ends with exit status 2.  The program writes nothing to its log and
    [templates] is the set it was.  Each variant on its own file set. *)
Theorem reload_failure_stops_process (o : OS) (rest : list (OS * Recv))
    (w : World) :
  (forall m1,
      template_ParseFiles o
        (single_template_files (templateDirectory (flags w))) = Err m1 ->
      Single.templateReloader ((o, RecvEvent true) :: rest) w
      = (set_os o w, Panic m1)
      /\ after_goroutine
           (Single.templateReloader ((o, RecvEvent true) :: rest) w)
         = Stopped 2 (set_os o w))
  /\ (forall m2,
        template_ParseFiles o
          (multiplex_template_files (templateDirectory (flags w))) = Err m2 ->
        Multiplex.templateReloader ((o, RecvEvent true) :: rest) w
        = (set_os o w, Panic m2)
        /\ after_goroutine
             (Multiplex.templateReloader ((o, RecvEvent true) :: rest) w)
           = Stopped 2 (set_os o w))
  /\ templates (set_os o w) = templates w
  /\ logged (set_os o w) = logged w.
Proof.
  split; [|split; [|split; reflexivity]].
  - intros m1 H1.
    assert (S : Single.templateReloader ((o, RecvEvent true) :: rest) w
                = (set_os o w, Panic m1)).
    { unfold Single.templateReloader. rewrite templateReloader_event.
      apply bind_Panic. apply single_reload_fails. exact H1. }
    rewrite S. split; reflexivity.
  - intros m2 H2.
    assert (P : Multiplex.templateReloader ((o, RecvEvent true) :: rest) w
                = (set_os o w, Panic m2)).
    { unfold Multiplex.templateReloader. rewrite templateReloader_event.
      apply bind_Panic. apply multiplex_reload_fails. exact H2. }
    rewrite P. split; reflexivity.
Qed.

(** ** Setting up the watch *)

Lemma templateChanges_no_watcher (w : World) (err : string) :
  fsnotify_NewWatcher (os w) = Err err ->
  templateChanges w = (add_log "Unable to create watcher" w, Done tt).
Proof. intros H. unfold templateChanges. run_go. rewrite H. reflexivity. Qed.

Lemma templateChanges_not_watching (w : World) (watcher : Watcher)
    (err : string) :
  fsnotify_NewWatcher (os w) = Ok watcher ->
  Watcher_Add (os w) watcher (filepath_Join ["./templates"]) = Some err ->
  templateChanges w
  = (add_task TemplateReloaderTask
       (add_log "Unable to watch template folder" w), Done tt).
Proof.
  intros H1 H2. unfold templateChanges. run_go. rewrite H1, H2. reflexivity.
Qed.

Lemma templateChanges_watching (w : World) (watcher : Watcher) :
  fsnotify_NewWatcher (os w) = Ok watcher ->
  Watcher_Add (os w) watcher (filepath_Join ["./templates"]) = None ->
  templateChanges w = (add_task TemplateReloaderTask w, Done tt).
Proof.
  intros H1 H2. unfold templateChanges. run_go. rewrite H1, H2. reflexivity.
Qed.

(** [templateChanges] always returns, and changes nothing but the log and
    the list of goroutines. *)
Lemma templateChanges_returns (w : World) :
  exists w', templateChanges w = (w', Done tt)
             /\ templates w' = templates w /\ notified w' = notified w.
Proof.
  destruct (fsnotify_NewWatcher (os w)) as [watcher | err] eqn:H1.
  - destruct (Watcher_Add (os w) watcher (filepath_Join ["./templates"]))
      as [err |] eqn:H2.
    + eexists. split; [apply (templateChanges_not_watching _ _ _ H1 H2)|].
      split; reflexivity.
    + eexists. split; [apply (templateChanges_watching _ _ H1 H2)|].
      split; reflexivity.
  - eexists. split; [apply (templateChanges_no_watcher _ _ H1)|].
    split; reflexivity.
Qed.

End Templates.

(** ** Start-up *)

Section Startup.
Context {E : Externals}.

(** C8.  In the multiplexed variant, a start-up whose flags parse, which
    is not in download mode, and whose template files do not parse never
    reaches the watcher or the listener: [main] does not return, no
    goroutine has been started, no signal is awaited and [templates] is
    untouched; when the word lists load, the run ends in the panic of
    [template.Must], with exit status 2. *)
Theorem startup_parse_failure_aborts
    (loadWords : OS -> string -> Outcome (list SpellChecker))
    (downloadFlags : M unit) (shutdown : option string)
    (w : World) (f' : Flags) (msg : string) :
  envflag_Parse (os w) (flags w) = Ok f' ->
  download f' = false ->
  template_ParseFiles (os w)
    (multiplex_template_files (templateDirectory f')) = Err msg ->
  exists w' o,
    Multiplex.main loadWords downloadFlags shutdown w = (w', o)
    /\ (forall u, o <> Done u)
    /\ tasks w' = tasks w
    /\ notified w' = notified w
    /\ templates w' = templates w
    /\ (forall ws, loadWords (os w) (wordList f') = Done ws ->
                   o = Panic msg /\ exit_status o = 2).
Proof.
  intros Hflags Hdl Hparse.
  unfold Multiplex.main, Multiplex.reloadTemplates. run_go.
  rewrite Hflags. cbn [flags set_flags]. rewrite Hdl.
  cbn [os add_log set_words set_flags flags templateDirectory wordList].
  unfold multiplex_template_files in Hparse. rewrite Hparse.
  destruct (loadWords (os w) (wordList f')) as [ws | code | p] eqn:Hload.
  - eexists. eexists. split; [reflexivity|].
    repeat split; try discriminate.
  - eexists. eexists. split; [reflexivity|].
    repeat split; try discriminate.
  - eexists. eexists. split; [reflexivity|].
    repeat split; try discriminate.
Qed.

(** The same start-up fault in the single-list variant. *)
Lemma single_startup_parse_failure_aborts
    (shutdown : option string) (w : World) (f' : Flags) (msg : string) :
  envflag_Parse (os w) (flags w) = Ok f' ->
  template_ParseFiles (os w)
    (single_template_files (templateDirectory f')) = Err msg ->
  Single.main shutdown w = (set_flags f' w, Panic msg).
Proof.
  intros Hflags Hparse.
  unfold Single.main, Single.reloadTemplates. run_go.
  rewrite Hflags. cbn [os flags set_flags].
  unfold single_template_files in Hparse. rewrite Hparse. reflexivity.
Qed.

(** Flags that do not parse end the process with status 1 at once. *)
Lemma single_flag_failure_exits (shutdown : option string) (w : World)
    (err : string) :
  envflag_Parse (os w) (flags w) = Err err ->
  Single.main shutdown w
  = (add_log ("Unable to parse flags: " ++ err) w, Exit 1).
Proof.
  intros Hflags. unfold Single.main. run_go. rewrite Hflags. reflexivity.
Qed.

(** Once a signal has arrived, the status of the process is decided by
    what [server.Shutdown] returned: 0 for a nil error, 1 otherwise. *)
Lemma single_main_exit_status (shutdown : option string) (w : World)
    (f' : Flags) (t : Template) :
  envflag_Parse (os w) (flags w) = Ok f' ->
  template_ParseFiles (os w)
    (single_template_files (templateDirectory f')) = Ok t ->
  exit_status (snd (Single.main shutdown w))
  = match shutdown with
    | None => 0
    | Some _ => 1
    end.
Proof.
  intros Hflags Hparse.
  unfold Single.main, Single.reloadTemplates. run_go.
  rewrite Hflags. cbn [os flags set_flags].
  unfold single_template_files in Hparse. rewrite Hparse.
  destruct (templateChanges_returns (set_templates (Some t) (set_flags f' w)))
    as [w1 [H1 _]].
  rewrite H1. destruct shutdown; reflexivity.
Qed.

Lemma multiplex_main_exit_status
    (loadWords : OS -> string -> Outcome (list SpellChecker))
    (downloadFlags : M unit) (shutdown : option string)
    (w : World) (f' : Flags) (ws : list SpellChecker) (t : Template) :
  envflag_Parse (os w) (flags w) = Ok f' ->
  download f' = false ->
  loadWords (os w) (wordList f') = Done ws ->
  template_ParseFiles (os w)
    (multiplex_template_files (templateDirectory f')) = Ok t ->
  exit_status (snd (Multiplex.main loadWords downloadFlags shutdown w))
  = match shutdown with
    | None => 0
    | Some _ => 1
    end.
Proof.
  intros Hflags Hdl Hload Hparse.
  unfold Multiplex.main, Multiplex.reloadTemplates. run_go.
  rewrite Hflags. cbn [flags set_flags]. rewrite Hdl.
  cbn [os add_log set_words set_flags flags templateDirectory wordList].
  unfold multiplex_template_files in Hparse. rewrite Hparse, Hload.
  destruct (templateChanges_returns
              (set_templates (Some t)
                 (add_log "Loading templates."
                    (set_words ws
                       (add_log "Loading wordlist." (set_flags f' w))))))
    as [w1 [H1 _]].
  rewrite H1. destruct shutdown; reflexivity.
Qed.

End Startup.

(** ** Shutdown on a signal *)

Section Shutdown.
Context {E : Externals}.








End Shutdown.

(** ** The access log *)

Section AccessLog.
Context {E : Externals}.

Lemma string_app_assoc (a b c : string) : (a ++ b) ++ c = a ++ b ++ c.
Proof.
  induction a as [|x a IH]; [reflexivity|].
  cbn [append]. rewrite IH. reflexivity.
Qed.

Lemma occurs_in_here (sub after : string) : occurs_in sub (sub ++ after).
Proof. exists EmptyString, after. reflexivity. Qed.

Lemma occurs_in_later (sub before s : string) :
  occurs_in sub s -> occurs_in sub (before ++ s).
Proof.
  intros [b [a ->]]. exists (before ++ b), a.
  rewrite string_app_assoc. reflexivity.
Qed.

Lemma occurs_in_end (sub : string) : occurs_in sub sub.
Proof.
  exists EmptyString, EmptyString. cbn [append].
  induction sub as [|c s IH]; [reflexivity|].
  cbn [append]. rewrite <- IH. reflexivity.
Qed.

(** C9.  The wrapper installed around the whole mux runs the handler
    and, when the handler has returned, appends one line to the log,
    after everything the handler logged; the line holds the remote
    address, the method and the request URI.  Nothing else changes, and
    the response is the handler's. *)
Theorem requestLogger_logs_once (targetMux : Handler)
    (rw rw' : ResponseWriter) (r : Request) (w w' : World) :
  targetMux rw r w = (w', Done rw') ->
  (exists line,
      Single.requestLogger targetMux rw r w = (add_log line w', Done rw')
      /\ logged (add_log line w') = (logged w' ++ [line])%list
      /\ occurs_in (RemoteAddr r) line
      /\ occurs_in (Method r) line
      /\ occurs_in (RequestURI r) line)
  /\ (exists line,
        Multiplex.requestLogger targetMux rw r w = (add_log line w', Done rw')
        /\ logged (add_log line w') = (logged w' ++ [line])%list
        /\ occurs_in (RemoteAddr r) line
        /\ occurs_in (Method r) line
        /\ occurs_in (RequestURI r) line).
Proof.
  intros H. split.
  - eexists. split.
    { unfold Single.requestLogger. rewrite (bind_Done _ _ _ _ _ H).
      reflexivity. }
    split; [reflexivity|]. split; [apply occurs_in_here|]. split.
    + do 3 apply occurs_in_later. apply occurs_in_here.
    + do 6 apply occurs_in_later. apply occurs_in_here.
  - eexists. split.
    { unfold Multiplex.requestLogger. rewrite (bind_Done _ _ _ _ _ H).
      reflexivity. }
    split; [reflexivity|]. split; [apply occurs_in_here|]. split.
    + do 3 apply occurs_in_later. apply occurs_in_here.
    + do 6 apply occurs_in_later. apply occurs_in_end.
Qed.

(** A handler that panics leaves no access-log line. *)
Lemma requestLogger_panic (targetMux : Handler) (rw : ResponseWriter)
    (r : Request) (w w' : World) (msg : string) :
  targetMux rw r w = (w', Panic msg) ->
  Single.requestLogger targetMux rw r w = (w', Panic msg)
  /\ Multiplex.requestLogger targetMux rw r w = (w', Panic msg).
Proof.
  intros H. split.
  - unfold Single.requestLogger. apply bind_Panic. exact H.
  - unfold Multiplex.requestLogger. apply bind_Panic. exact H.
Qed.

End AccessLog.

(** ** The watch that could not be set up *)

Section WatchFailure.
Context {E : Externals}.

(** C6, at the second failure.  When the watcher exists but the template
    directory cannot be watched, [templateChanges] logs the problem and
    then starts the reloader goroutine all the same: the return that
    ends the first failure branch is missing from this one. *)
Theorem watch_failure_still_starts_reloader (w : World) (watcher : Watcher)
    (err : string) :
  fsnotify_NewWatcher (os w) = Ok watcher ->
  Watcher_Add (os w) watcher (filepath_Join ["./templates"]) = Some err ->
  templateChanges w
  = (add_task TemplateReloaderTask
       (add_log "Unable to watch template folder" w), Done tt)
  /\ tasks (fst (templateChanges w))
     = (tasks w ++ [TemplateReloaderTask])%list
  /\ logged (fst (templateChanges w))
     = (logged w ++ ["Unable to watch template folder"])%list.
Proof.
  intros H1 H2. rewrite (templateChanges_not_watching _ _ _ H1 H2).
  repeat split.
Qed.

End WatchFailure.

(** * Runs on the small host *)

Section Runs.

(** C1 as stated fails: an empty input on a host whose word list cannot
    be read is answered with 500 and a plain body, not with 400. *)
Lemma empty_input_without_word_list :
  invalid_length (FormValue (demo_request "/anagram" EmptyString) "input")
  /\ served Single.anagramHandler (demo_request "/anagram" EmptyString)
       offline
     = Some (plain_response StatusInternalServerError
               "Unable to load wordlist")
  /\ served Single.anagramHandler (demo_request "/anagram" EmptyString)
       offline
     <> Some (json_response StatusBadRequest invalid_input_body).
Proof.
  split; [left; reflexivity|]. split; [reflexivity|].
  vm_compute. discriminate.
Qed.

Lemma invalid_input_bad_request_witness :
  kowalski_LoadWords (os fresh) (wordList (flags fresh)) = Ok tt
  /\ invalid_length
       (FormValue (demo_request "/anagram" "abcdefghijklmn") "input")
  /\ served Single.anagramHandler (demo_request "/anagram" "abcdefghijklmn")
       fresh
     = Some (json_response StatusBadRequest invalid_input_body).
Proof.
  assert (H1 : kowalski_LoadWords (os fresh) (wordList (flags fresh)) = Ok tt)
    by reflexivity.
  assert (H2 : invalid_length
                 (FormValue (demo_request "/anagram" "abcdefghijklmn")
                    "input"))
    by (right; vm_compute; discriminate).
  split; [exact H1|]. split; [exact H2|].
  exact (proj1 (invalid_input_bad_request _ _ _ H1 H2)).
Defined.

(** C2 as stated fails twice: a valid input on a host whose word list
    cannot be read is answered with 500, and a lookup that returns the nil
    slice is written as [null], which is not an empty array. *)
Lemma valid_input_not_ok_and_null :
  valid_length (FormValue (demo_request "/anagram" "listen") "input")
  /\ served Single.anagramHandler (demo_request "/anagram" "listen") offline
     = Some (plain_response StatusInternalServerError
               "Unable to load wordlist")
  /\ valid_length (FormValue (demo_request "/anagram" "qqq") "input")
  /\ len_slice (demo_anagrams "qqq") = 0
  /\ served Single.anagramHandler (demo_request "/anagram" "qqq") fresh
     = Some (json_response StatusOK no_candidates_null_body)
  /\ no_candidates_null_body <> no_candidates_array_body.
Proof.
  split; [vm_compute; split; discriminate|]. split; [reflexivity|].
  split; [vm_compute; split; discriminate|]. split; [reflexivity|].
  split; [reflexivity|]. vm_compute. discriminate.
Qed.

Lemma valid_input_ok_witness :
  kowalski_LoadWords (os fresh) (wordList (flags fresh)) = Ok tt
  /\ valid_length (FormValue (demo_request "/anagram" "listen") "input")
  /\ served Single.anagramHandler (demo_request "/anagram" "listen") fresh
     = Some (json_response StatusOK
               (Single.Marshal_OutputArray
                  (Single.mkOutputArray true
                     (Slice ["enlist"; "inlets"; "silent"; "tinsel"])))).
Proof.
  assert (H1 : kowalski_LoadWords (os fresh) (wordList (flags fresh)) = Ok tt)
    by reflexivity.
  assert (H2 : valid_length
                 (FormValue (demo_request "/anagram" "listen") "input"))
    by (vm_compute; split; discriminate).
  split; [exact H1|]. split; [exact H2|].
  exact (proj1 (valid_input_ok _ _ _ H1 H2)).
Defined.

(** C3 as stated fails: on an empty input the word list is loaded all
    the same, before the input is looked at. *)
Lemma empty_input_loads_word_list :
  invalid_length (FormValue (demo_request "/anagram" EmptyString) "input")
  /\ provider fresh = []
  /\ provider (world_after Single.anagramHandler
                 (demo_request "/anagram" EmptyString) fresh)
     = [CallLoadWords "/app/wordlist.txt"].
Proof. split; [left; reflexivity|]. split; reflexivity. Qed.

Lemma invalid_input_provider_calls_witness :
  invalid_length
    (FormValue (demo_request "/match" "abcdefghijklmnop") "input")
  /\ provider (world_after Single.matchHandler
                 (demo_request "/match" "abcdefghijklmnop") fresh)
     = (provider fresh ++ [CallLoadWords (wordList (flags fresh))])%list.
Proof.
  assert (H : invalid_length
                (FormValue (demo_request "/match" "abcdefghijklmnop")
                   "input"))
    by (right; vm_compute; discriminate).
  split; [exact H|].
  exact (proj1 (proj2 (invalid_input_provider_calls _ fresh H))).
Defined.

(** C4 as stated fails: the body of the 500 answer is the bare text, not
    a JSON object, and the JSON content type is not set. *)
Lemma load_failure_body_is_plain_text :
  served Single.anagramHandler (demo_request "/anagram" "listen") offline
  = Some (plain_response StatusInternalServerError "Unable to load wordlist")
  /\ served Single.anagramHandler (demo_request "/anagram" "listen") offline
     <> Some (json_response StatusInternalServerError
                (Single.Marshal_OutputString
                   (Single.mkOutputString false "Unable to load wordlist"))).
Proof. split; [reflexivity|]. vm_compute. discriminate. Qed.

Lemma load_failure_response_witness :
  kowalski_LoadWords (os offline) (wordList (flags offline))
  = Err "no such file or directory"
  /\ served Single.matchHandler (demo_request "/match" "c?t") offline
     = Some (plain_response StatusInternalServerError
               "Unable to load wordlist")
  /\ logged (world_after Single.matchHandler (demo_request "/match" "c?t")
               offline)
     = ["Unable to load words: no such file or directory"].
Proof.
  assert (H : kowalski_LoadWords (os offline) (wordList (flags offline))
              = Err "no such file or directory") by reflexivity.
  split; [exact H|].
  pose proof (load_failure_response (demo_request "/match" "c?t") offline _ H)
    as [_ [Hm [_ Hw]]].
  split; [exact Hm|]. rewrite Hw. reflexivity.
Defined.

(** C5 as stated fails: a change event on templates that no longer parse
    ends the process; it does not go on serving the older set. *)
Lemma reload_failure_ends_process :
  templates serving = Some ["/app/templates/index.html"]
  /\ after_goroutine
       (Single.templateReloader [(broken_templates, RecvEvent true)] serving)
     = Stopped 2 (set_os broken_templates serving)
  /\ after_goroutine
       (Multiplex.templateReloader [(broken_templates, RecvEvent true)]
          serving)
     = Stopped 2 (set_os broken_templates serving).
Proof. repeat split. Qed.

Lemma reload_failure_stops_process_witness :
  @template_ParseFiles demo_index_only healthy
    (single_template_files
       (templateDirectory (flags (index_only_world
                                    (Some ["/app/templates/index.html"])))))
  = Err "open /app/templates/main.css: no such file or directory"
  /\ @template_ParseFiles demo_index_only healthy
       (multiplex_template_files
          (templateDirectory (flags (index_only_world
                                       (Some ["/app/templates/index.html"])))))
     = Ok ["/app/templates/index.html"]
  /\ after_goroutine
       (@Single.templateReloader demo_index_only
          [(healthy, RecvEvent true); (healthy, RecvEvent true)]
          (index_only_world (Some ["/app/templates/index.html"])))
     = Stopped 2 (index_only_world (Some ["/app/templates/index.html"])).
Proof.
  assert (H1 : @template_ParseFiles demo_index_only healthy
                 (single_template_files
                    (templateDirectory
                       (flags (index_only_world
                                 (Some ["/app/templates/index.html"])))))
               = Err "open /app/templates/main.css: no such file or directory")
    by reflexivity.
  split; [exact H1|]. split; [reflexivity|].
  exact (proj2 (proj1 (@reload_failure_stops_process demo_index_only healthy
                         [(healthy, RecvEvent true)]
                         (index_only_world
                            (Some ["/app/templates/index.html"]))) _ H1)).
Defined.

Lemma watch_failure_still_starts_reloader_witness :
  fsnotify_NewWatcher (os (demo_world unwatchable None)) = Ok tt
  /\ Watcher_Add (os (demo_world unwatchable None)) tt
       (filepath_Join ["./templates"])
     = Some "no such file or directory"
  /\ tasks (fst (templateChanges (demo_world unwatchable None)))
     = [TemplateReloaderTask]
  /\ logged (fst (templateChanges (demo_world unwatchable None)))
     = ["Unable to watch template folder"].
Proof.
  assert (H1 : fsnotify_NewWatcher (os (demo_world unwatchable None)) = Ok tt)
    by reflexivity.
  assert (H2 : Watcher_Add (os (demo_world unwatchable None)) tt
                 (filepath_Join ["./templates"])
               = Some "no such file or directory") by reflexivity.
  split; [exact H1|]. split; [exact H2|].
  exact (proj2 (watch_failure_still_starts_reloader
                  (demo_world unwatchable None) tt _ H1 H2)).
Defined.

(** The first failure branch does what the second one misses. *)
Lemma no_watcher_starts_nothing :
  templateChanges (demo_world no_watcher None)
  = (add_log "Unable to create watcher" (demo_world no_watcher None), Done tt)
  /\ tasks (fst (templateChanges (demo_world no_watcher None))) = [].
Proof. split; reflexivity. Qed.

Lemma startup_parse_failure_aborts_witness :
  envflag_Parse (os (demo_world broken_templates None))
    (flags (demo_world broken_templates None)) = Ok default_flags
  /\ download default_flags = false
  /\ template_ParseFiles (os (demo_world broken_templates None))
       (multiplex_template_files (templateDirectory default_flags))
     = Err "unexpected EOF"
  /\ exists w' o,
       Multiplex.main demo_loadWords (ret tt) None
         (demo_world broken_templates None) = (w', o)
       /\ (forall u, o <> Done u)
       /\ tasks w' = tasks (demo_world broken_templates None)
       /\ notified w' = notified (demo_world broken_templates None)
       /\ templates w' = templates (demo_world broken_templates None)
       /\ (forall ws,
             demo_loadWords (os (demo_world broken_templates None))
               (wordList default_flags) = Done ws ->
             o = Panic "unexpected EOF" /\ exit_status o = 2).
Proof.
  assert (H1 : envflag_Parse (os (demo_world broken_templates None))
                 (flags (demo_world broken_templates None))
               = Ok default_flags) by reflexivity.
  assert (H2 : download default_flags = false) by reflexivity.
  assert (H3 : template_ParseFiles (os (demo_world broken_templates None))
                 (multiplex_template_files (templateDirectory default_flags))
               = Err "unexpected EOF") by reflexivity.
  split; [exact H1|]. split; [exact H2|]. split; [exact H3|].
  exact (startup_parse_failure_aborts demo_loadWords (ret tt) None
           (demo_world broken_templates None) default_flags _ H1 H2 H3).
Defined.

Lemma requestLogger_logs_once_witness :
  Single.anagramHandler newResponseWriter (demo_request "/anagram" "listen")
    fresh
  = (add_call (CallAnagrams "listen")
       (add_call (CallLoadWords "/app/wordlist.txt") fresh),
     Done (json_response StatusOK
             (Single.Marshal_OutputArray
                (Single.mkOutputArray true
                   (Slice ["enlist"; "inlets"; "silent"; "tinsel"])))))
  /\ exists line,
       Single.requestLogger Single.anagramHandler newResponseWriter
         (demo_request "/anagram" "listen") fresh
       = (add_log line
            (add_call (CallAnagrams "listen")
               (add_call (CallLoadWords "/app/wordlist.txt") fresh)),
          Done (json_response StatusOK
                  (Single.Marshal_OutputArray
                     (Single.mkOutputArray true
                        (Slice ["enlist"; "inlets"; "silent"; "tinsel"])))))
       /\ occurs_in "192.0.2.7:51234" line
       /\ occurs_in "GET" line
       /\ occurs_in "/anagram?input=listen" line.
Proof.
  assert (H : Single.anagramHandler newResponseWriter
                (demo_request "/anagram" "listen") fresh
              = (add_call (CallAnagrams "listen")
                   (add_call (CallLoadWords "/app/wordlist.txt") fresh),
                 Done (json_response StatusOK
                         (Single.Marshal_OutputArray
                            (Single.mkOutputArray true
                               (Slice ["enlist"; "inlets"; "silent";
                                       "tinsel"]))))))
    by reflexivity.
  split; [exact H|].
  destruct (proj1 (requestLogger_logs_once Single.anagramHandler
                     newResponseWriter _ (demo_request "/anagram" "listen")
                     fresh _ H))
    as [line [Hrun [_ Hocc]]].
  exists line. split; [exact Hrun | exact Hocc].
Defined.




End Runs.

(** * Further properties of the code *)

(** ** The lookup handlers, beyond the three answers *)

Section LookupFacts.
Context {E : Externals}.

Lemma first_value_absent (key : string) (form : list (string * list string)) :
  (forall vs, ~ In (key, vs) form) -> first_value key form = EmptyString.
Proof.
  induction form as [|[k vs] rest IH]; intros H; [reflexivity|].
  cbn [first_value]. destruct (String.eqb_spec k key) as [-> | Hk].
  - exfalso. apply (H vs). left. reflexivity.
  - apply IH. intros vs' Hin. apply (H vs'). right. exact Hin.
Qed.

Lemma served_json (h : Handler) (r : Request) (w w1 : World)
    (bytes : string) (code : Z) (m : M (string * Z)) :
  h newResponseWriter r w
  = bind m
      (fun p => ret (Write_bytes
                       (WriteHeader
                          (Header_Add newResponseWriter "Content-Type"
                             "application/json") (snd p)) (fst p))) w1 ->
  forall w2, m w1 = (w2, Done (bytes, code)) ->
  h newResponseWriter r w = (w2, Done (json_response code bytes)).
Proof.
  intros Hh w2 Hm. rewrite Hh. rewrite (bind_Done _ _ _ _ _ Hm). reflexivity.
Qed.

(** A request without an [input] field is a request with the empty
    input: once the word list is loaded it is answered with 400 and the
    invalid-input body, by both handlers. *)
Theorem missing_input_is_invalid (r : Request) (w : World) (ws : Words) :
  (forall vs, ~ In ("input", vs) (Form r)) ->
  kowalski_LoadWords (os w) (wordList (flags w)) = Ok ws ->
  FormValue r "input" = EmptyString
  /\ served Single.anagramHandler r w
     = Some (json_response StatusBadRequest invalid_input_body)
  /\ served Single.matchHandler r w
     = Some (json_response StatusBadRequest invalid_input_body).
Proof.
  intros Habs Hload.
  assert (Hv : FormValue r "input" = EmptyString)
    by (apply first_value_absent; exact Habs).
  assert (Hlen : invalid_length (FormValue r "input"))
    by (rewrite Hv; left; reflexivity).
  split; [exact Hv|]. unfold served. split.
  - rewrite (served_json _ _ _ _ _ _ _ (anagramHandler_loaded r w ws Hload) _
               (getResults_invalid _ _ _ Hlen)).
    reflexivity.
  - rewrite (served_json _ _ _ _ _ _ _ (matchHandler_loaded r w ws Hload) _
               (getResults_invalid _ _ _ Hlen)).
    reflexivity.
Qed.

(** A request with a valid input changes the world by two calls into
    the word data provider and nothing else: one load of the configured
    word list, then one lookup of its own kind on the input as it was
    sent.  Nothing is logged. *)
Theorem valid_lookup_calls (r : Request) (w : World) (ws : Words) :
  kowalski_LoadWords (os w) (wordList (flags w)) = Ok ws ->
  valid_length (FormValue r "input") ->
  world_after Single.anagramHandler r w
  = add_call (CallAnagrams (FormValue r "input"))
      (add_call (CallLoadWords (wordList (flags w))) w)
  /\ world_after Single.matchHandler r w
     = add_call (CallMatch (FormValue r "input"))
         (add_call (CallLoadWords (wordList (flags w))) w)
  /\ logged (world_after Single.anagramHandler r w) = logged w
  /\ logged (world_after Single.matchHandler r w) = logged w.
Proof.
  intros Hload Hlen.
  assert (A : world_after Single.anagramHandler r w
              = add_call (CallAnagrams (FormValue r "input"))
                  (add_call (CallLoadWords (wordList (flags w))) w)).
  { unfold world_after.
    erewrite (served_json _ _ _ _ _ _ _ (anagramHandler_loaded r w ws Hload))
      by (apply getResults_valid; [exact Hlen | reflexivity]).
    reflexivity. }
  assert (B : world_after Single.matchHandler r w
              = add_call (CallMatch (FormValue r "input"))
                  (add_call (CallLoadWords (wordList (flags w))) w)).
  { unfold world_after.
    erewrite (served_json _ _ _ _ _ _ _ (matchHandler_loaded r w ws Hload))
      by (apply getResults_valid; [exact Hlen | reflexivity]).
    reflexivity. }
  rewrite A, B. repeat split.
Qed.

(** What a response says about the request it answers. *)
Lemma answer_classes (h : Handler) (lookup : Words -> string -> M (slice string))
    (r : Request) (w : World) :
  (forall ws,
      kowalski_LoadWords (os w) (wordList (flags w)) = Ok ws ->
      h newResponseWriter r w
      = bind (Single.getResults (FormValue r "input") (lookup ws))
          (fun p => ret (Write_bytes
                           (WriteHeader
                              (Header_Add newResponseWriter "Content-Type"
                                 "application/json") (snd p)) (fst p)))
          (add_call (CallLoadWords (wordList (flags w))) w)) ->
  (forall err,
      kowalski_LoadWords (os w) (wordList (flags w)) = Err err ->
      h newResponseWriter r w
      = (add_log ("Unable to load words: " ++ err)
           (add_call (CallLoadWords (wordList (flags w))) w),
         Done (plain_response StatusInternalServerError
                 "Unable to load wordlist"))) ->
  (forall ws w0, exists w1 res,
      lookup ws (FormValue r "input") w0 = (w1, Done res)) ->
  exists rw,
    served h r w = Some rw
    /\ (status rw = Some StatusInternalServerError
        \/ status rw = Some StatusBadRequest
        \/ status rw = Some StatusOK)
    /\ (status rw = Some StatusInternalServerError
        <-> exists err,
              kowalski_LoadWords (os w) (wordList (flags w)) = Err err)
    /\ (status rw = Some StatusBadRequest
        <-> (exists ws,
               kowalski_LoadWords (os w) (wordList (flags w)) = Ok ws)
            /\ invalid_length (FormValue r "input")).
Proof.
  intros Hok Hfail Hret. unfold served.
  destruct (kowalski_LoadWords (os w) (wordList (flags w))) as [ws | err]
    eqn:Hload.
  - destruct (invalid_or_valid (FormValue r "input")) as [Hlen | Hlen].
    + rewrite (served_json _ _ _ _ _ _ _ (Hok ws eq_refl)
                 _ (getResults_invalid _ _ _ Hlen)).
      eexists. split; [reflexivity|]. cbn. split; [auto|]. split.
      * split; [discriminate | intros [e He]; discriminate].
      * split; [intros _; split; [exists ws; reflexivity | exact Hlen]
               | reflexivity].
    + destruct (Hret ws (add_call (CallLoadWords (wordList (flags w))) w))
        as [w1 [res Hres]].
      rewrite (served_json _ _ _ _ _ _ _ (Hok ws eq_refl)
                 _ (getResults_valid _ _ _ _ _ Hlen Hres)).
      eexists. split; [reflexivity|]. cbn. split; [auto|]. split.
      * split; [discriminate | intros [e He]; discriminate].
      * split; [discriminate|].
        intros [_ Hbad]. exfalso.
        unfold invalid_length, valid_length in *. lia.
  - rewrite (Hfail err eq_refl).
    eexists. split; [reflexivity|]. cbn. split; [auto|]. split.
    + split; [intros _; exists err; reflexivity | reflexivity].
    + split; [discriminate | intros [[ws Hws] _]; discriminate].
Qed.

(** The lookup handlers always return, and always with one of three
    statuses: 500 exactly when the word list does not load, otherwise
    400 exactly when the input has an invalid length, otherwise 200. *)
Theorem lookup_always_answers (h : Handler) (r : Request) (w : World) :
  h = Single.anagramHandler \/ h = Single.matchHandler ->
  exists rw,
    served h r w = Some rw
    /\ (status rw = Some StatusInternalServerError
        \/ status rw = Some StatusBadRequest
        \/ status rw = Some StatusOK)
    /\ (status rw = Some StatusInternalServerError
        <-> exists err,
              kowalski_LoadWords (os w) (wordList (flags w)) = Err err)
    /\ (status rw = Some StatusBadRequest
        <-> (exists ws,
               kowalski_LoadWords (os w) (wordList (flags w)) = Ok ws)
            /\ invalid_length (FormValue r "input")).
Proof.
  intros [-> | ->].
  - apply (answer_classes _ Anagrams).
    + intros ws H. apply (anagramHandler_loaded _ _ _ H).
    + intros err H. apply (anagramHandler_not_loaded _ _ _ H).
    + intros ws w0. eexists. eexists. reflexivity.
  - apply (answer_classes _ Match).
    + intros ws H. apply (matchHandler_loaded _ _ _ H).
    + intros err H. apply (matchHandler_not_loaded _ _ _ H).
    + intros ws w0. eexists. eexists. reflexivity.
Qed.

(** The three kinds of body cannot be mistaken for one another: an
    encoded lookup result is never the invalid-input body and never the
    text of the load failure, whatever the lookup returned and however
    the strings in it are encoded. *)
Theorem bodies_tell_answers_apart (o : Single.OutputArray) :
  Single.Marshal_OutputArray o <> invalid_input_body
  /\ Single.Marshal_OutputArray o <> "Unable to load wordlist"
  /\ invalid_input_body <> "Unable to load wordlist".
Proof.
  destruct o as [[|] [|l]]; repeat split;
    unfold Single.Marshal_OutputArray;
    cbn [Single.OutputArray_Success Single.OutputArray_Result];
    intro H; vm_compute in H; discriminate H.
Qed.

End LookupFacts.

(** ** The access log around a handler *)

Section AccessLogFacts.
Context {E : Externals}.

(** A failed load is logged before the access line of its request: the
    wrapper adds its line after the handler's, and passes the 500 answer
    on untouched. *)
Theorem access_line_follows_error_line (r : Request) (w : World)
    (err : string) :
  kowalski_LoadWords (os w) (wordList (flags w)) = Err err ->
  Single.requestLogger Single.anagramHandler newResponseWriter r w
  = (add_log (RemoteAddr r ++ tab ++ tab ++ Method r ++ tab ++ tab
              ++ RequestURI r ++ tab)
       (add_log ("Unable to load words: " ++ err)
          (add_call (CallLoadWords (wordList (flags w))) w)),
     Done (plain_response StatusInternalServerError
             "Unable to load wordlist"))
  /\ logged (fst (Single.requestLogger Single.anagramHandler
                    newResponseWriter r w))
     = (logged w
        ++ [("Unable to load words: " ++ err)%string;
            (RemoteAddr r ++ tab ++ tab ++ Method r ++ tab ++ tab
             ++ RequestURI r ++ tab)%string])%list.
Proof.
  intros Hload.
  assert (H : Single.requestLogger Single.anagramHandler newResponseWriter r w
              = (add_log (RemoteAddr r ++ tab ++ tab ++ Method r ++ tab ++ tab
                          ++ RequestURI r ++ tab)
                   (add_log ("Unable to load words: " ++ err)
                      (add_call (CallLoadWords (wordList (flags w))) w)),
                 Done (plain_response StatusInternalServerError
                         "Unable to load wordlist"))).
  { unfold Single.requestLogger.
    rewrite (bind_Done _ _ _ _ _ (anagramHandler_not_loaded r w err Hload)).
    reflexivity. }
  rewrite H. split; [reflexivity|].
  cbn [fst logged add_log add_call]. rewrite <- app_assoc. reflexivity.
Qed.

(** A handler that does not return, because it panics or leaves the
    process, gets no access-log line: the wrapper ends the way the
    handler ended, in the world the handler left. *)
Theorem no_access_line_without_return (targetMux : Handler)
    (rw : ResponseWriter) (r : Request) (w w' : World)
    (o : Outcome ResponseWriter) :
  targetMux rw r w = (w', o) ->
  (forall rw', o <> Done rw') ->
  Single.requestLogger targetMux rw r w = (w', o)
  /\ Multiplex.requestLogger targetMux rw r w = (w', o).
Proof.
  intros H Hnot.
  destruct o as [rw' | code | msg].
  - exfalso. apply (Hnot rw'). reflexivity.
  - split; [unfold Single.requestLogger | unfold Multiplex.requestLogger];
      apply bind_Exit; exact H.
  - split; [unfold Single.requestLogger | unfold Multiplex.requestLogger];
      apply bind_Panic; exact H.
Qed.

End AccessLogFacts.

(** ** Pages *)

Section PageFacts.
Context {E : Externals} {T : TemplateEngine}.

Lemma string_app_empty (s : string) : s ++ EmptyString = s.
Proof.
  induction s as [|c s IH]; [reflexivity|].
  cbn [append]. rewrite IH. reflexivity.
Qed.

(** What a run of writes leaves on a writer. *)
Lemma writes_in_order (chunks : list string) (w : ResponseWriter) :
  fold_left Write_bytes chunks w
  = mkResponseWriter (header w)
      (match chunks with
       | [] => sent w
       | _ :: _ =>
           match sent w with
           | Some s => Some s
           | None => Some (StatusOK, header w)
           end
       end)
      (body w ++ join chunks).
Proof.
  revert w. induction chunks as [|c cs IH]; intros w.
  - cbn [fold_left join fold_right]. rewrite string_app_empty.
    destruct w; reflexivity.
  - cbn [fold_left]. rewrite IH.
    unfold Write_bytes, WriteHeader.
    destruct w as [h [s|] b]; cbn [header sent body join fold_right];
      rewrite string_app_assoc; destruct cs; reflexivity.
Qed.

Lemma ExecuteTemplate_runs (writer : ResponseWriter) (name : string)
    (data : option string) (w : World) (t : Template)
    (chunks : list string) (err : option string) :
  templates w = Some t ->
  Template_Execute t name data = (chunks, err) ->
  ExecuteTemplate writer name data w
  = (w, Done (fold_left Write_bytes chunks writer, err)).
Proof.
  intros Ht Hx. unfold ExecuteTemplate. run_go. rewrite Ht, Hx. reflexivity.
Qed.

Lemma ExecuteTemplate_nil (writer : ResponseWriter) (name : string)
    (data : option string) (w : World) :
  templates w = None ->
  ExecuteTemplate writer name data w
  = (w, Panic "invalid memory address or nil pointer dereference").
Proof.
  intros Ht. unfold ExecuteTemplate. run_go. rewrite Ht. reflexivity.
Qed.

(** Any path but the root is answered by [indexHandler] with 404 and an
    empty body; the template set is not looked at, so this holds even
    before a set exists, and the world stays as it is. *)
Theorem index_other_paths_not_found (r : Request) (w : World) :
  URL_Path r <> "/" ->
  indexHandler newResponseWriter r w
  = (w, Done (plain_response StatusNotFound EmptyString)).
Proof.
  intros Hp. unfold indexHandler.
  destruct (String.eqb_spec (URL_Path r) "/") as [Heq | _];
    [contradiction | reflexivity].
Qed.

(** When the index template fails before it has written anything, the
    answer is 500 with an empty body and the error goes to the log. *)
Theorem index_failure_before_output (r : Request) (w : World) (t : Template)
    (e : string) :
  URL_Path r = "/" ->
  templates w = Some t ->
  Template_Execute t "index.html" (Some EmptyString) = ([], Some e) ->
  indexHandler newResponseWriter r w
  = (add_log ("Fucked up: " ++ e) w,
     Done (plain_response StatusInternalServerError EmptyString)).
Proof.
  intros Hp Ht Hx. unfold indexHandler. rewrite Hp.
  rewrite (proj2 (String.eqb_eq "/" "/") eq_refl).
  rewrite (bind_Done _ _ _ _ _ (ExecuteTemplate_runs _ _ _ _ _ _ _ Ht Hx)).
  reflexivity.
Qed.

(** Once the index template has written a first chunk the status is 200
    and stays 200: when the template then fails, the handler's 500 comes
    too late, the client gets the chunks written so far, and only the
    log tells. *)
Theorem index_output_fixes_status (r : Request) (w : World) (t : Template)
    (c : string) (cs : list string) (err : option string) :
  URL_Path r = "/" ->
  templates w = Some t ->
  Template_Execute t "index.html" (Some EmptyString) = (c :: cs, err) ->
  served indexHandler r w
  = Some (plain_response StatusOK (join (c :: cs)))
  /\ world_after indexHandler r w
     = match err with
       | Some e => add_log ("Fucked up: " ++ e) w
       | None => w
       end.
Proof.
  intros Hp Ht Hx. unfold served, world_after, indexHandler. rewrite Hp.
  rewrite (proj2 (String.eqb_eq "/" "/") eq_refl).
  rewrite (bind_Done _ _ _ _ _ (ExecuteTemplate_runs _ _ _ _ _ _ _ Ht Hx)).
  rewrite writes_in_order. destruct err; split; reflexivity.
Qed.

(** The style sheet and the script always carry their content type: the
    header is set before the template runs, so it goes out with a 200
    and with a 500 alike. *)
Theorem assets_carry_content_type (r : Request) (w : World) (t : Template) :
  templates w = Some t ->
  (exists rw,
      served cssHandler r w = Some rw
      /\ header rw = [("Content-Type", "text/css; charset=utf-8")]
      /\ (sent rw = None
          \/ sent rw = Some (StatusOK, header rw)
          \/ sent rw = Some (StatusInternalServerError, header rw)))
  /\ (exists rw,
        served jsHandler r w = Some rw
        /\ header rw
           = [("Content-Type", "application/javascript; charset=utf-8")]
        /\ (sent rw = None
            \/ sent rw = Some (StatusOK, header rw)
            \/ sent rw = Some (StatusInternalServerError, header rw))).
Proof.
  intros Ht. split.
  - unfold served, cssHandler.
    destruct (Template_Execute t "main.css" None) as [chunks err] eqn:Hx.
    rewrite (bind_Done _ _ _ _ _ (ExecuteTemplate_runs _ _ _ _ _ _ _ Ht Hx)).
    rewrite writes_in_order.
    destruct err as [e|], chunks as [|c cs]; eexists;
      (split; [reflexivity|]); (split; [reflexivity|]); cbn; auto.
  - unfold served, jsHandler.
    destruct (Template_Execute t "main.js" None) as [chunks err] eqn:Hx.
    rewrite (bind_Done _ _ _ _ _ (ExecuteTemplate_runs _ _ _ _ _ _ _ Ht Hx)).
    rewrite writes_in_order.
    destruct err as [e|], chunks as [|c cs]; eexists;
      (split; [reflexivity|]); (split; [reflexivity|]); cbn; auto.
Qed.

(** Without a template set every page panics, and does so before it
    logs or sends anything. *)
Theorem pages_panic_without_templates (rw : ResponseWriter) (r : Request)
    (w : World) :
  templates w = None ->
  URL_Path r = "/" ->
  (exists msg, indexHandler rw r w = (w, Panic msg))
  /\ (exists msg, cssHandler rw r w = (w, Panic msg))
  /\ (exists msg, jsHandler rw r w = (w, Panic msg)).
Proof.
  intros Ht Hp. repeat split; eexists.
  - unfold indexHandler. rewrite Hp.
    rewrite (proj2 (String.eqb_eq "/" "/") eq_refl).
    apply bind_Panic. apply ExecuteTemplate_nil. exact Ht.
  - unfold cssHandler. apply bind_Panic. apply ExecuteTemplate_nil. exact Ht.
  - unfold jsHandler. apply bind_Panic. apply ExecuteTemplate_nil. exact Ht.
Qed.

End PageFacts.

(** ** The reloader over a whole schedule *)

Section ReloaderFacts.
Context {E : Externals}.

Lemma single_reloads : reloads Single.reloadTemplates.
Proof.
  intros w.
  destruct (template_ParseFiles (os w)
              (single_template_files (templateDirectory (flags w))))
    as [t | msg] eqn:H.
  - right. exists t. apply single_reload_succeeds. exact H.
  - left. exists msg. apply single_reload_fails. exact H.
Qed.

Lemma multiplex_reloads : reloads Multiplex.reloadTemplates.
Proof.
  intros w.
  destruct (template_ParseFiles (os w)
              (multiplex_template_files (templateDirectory (flags w))))
    as [t | msg] eqn:H.
  - right. exists t. apply multiplex_reload_succeeds. exact H.
  - left. exists msg. apply multiplex_reload_fails. exact H.
Qed.

(** The loop, one message at a time. *)
Lemma templateReloader_step (reload : M unit) (o : OS) (m : Recv)
    (rest : list (OS * Recv)) (w : World) :
  templateReloader reload ((o, m) :: rest) w
  = match m with
    | RecvEvent true =>
        bind reload (fun _ => templateReloader reload rest) (set_os o w)
    | RecvError err true =>
        templateReloader reload rest (add_log ("error: " ++ err) (set_os o w))
    | RecvEvent false | RecvError _ false => (set_os o w, Done Returned)
    end.
Proof. destruct m as [[|] | err [|]]; reflexivity. Qed.

(** Whatever holds of the world and survives a new host state, a new
    template set and a new log line, holds after the loop. *)
Lemma reloader_preserves (reload : M unit) (P : World -> Prop) :
  reloads reload ->
  (forall o w, P w -> P (set_os o w)) ->
  (forall t w, P w -> P (set_templates (Some t) w)) ->
  (forall line w, P w -> P (add_log line w)) ->
  forall schedule w, P w -> P (fst (templateReloader reload schedule w)).
Proof.
  intros Hr Hos Htpl Hlog schedule.
  induction schedule as [|[o m] rest IH]; intros w Hw; [exact Hw|].
  rewrite templateReloader_step.
  destruct m as [[|] | err [|]].
  - destruct (Hr (set_os o w)) as [[msg Hp] | [t Hd]].
    + rewrite (bind_Panic _ _ _ _ _ Hp). apply Hos. exact Hw.
    + rewrite (bind_Done _ _ _ _ _ Hd). apply IH. apply Htpl, Hos. exact Hw.
  - apply Hos. exact Hw.
  - apply IH. apply Hlog, Hos. exact Hw.
  - apply Hos. exact Hw.
Qed.

Lemma reloader_configuration (reload : M unit) (schedule : list (OS * Recv))
    (w : World) :
  reloads reload ->
  same_configuration w (fst (templateReloader reload schedule w))
  /\ tasks (fst (templateReloader reload schedule w)) = tasks w.
Proof.
  intros Hr.
  apply (reloader_preserves reload
           (fun w' => same_configuration w w' /\ tasks w' = tasks w) Hr);
    try (intros ? w' Hw'; exact Hw').
  repeat split.
Qed.

(** The reloader writes the host state, the template set and the log,
    and nothing else: over any schedule, and however the loop ends, the
    flags, the word lists, the calls into the word data provider, the
    goroutines and the awaited signals are those it started with. *)
Theorem reloader_keeps_configuration (schedule : list (OS * Recv))
    (w : World) :
  (same_configuration w (fst (Single.templateReloader schedule w))
   /\ tasks (fst (Single.templateReloader schedule w)) = tasks w)
  /\ (same_configuration w (fst (Multiplex.templateReloader schedule w))
      /\ tasks (fst (Multiplex.templateReloader schedule w)) = tasks w).
Proof.
  split.
  - apply reloader_configuration. exact single_reloads.
  - apply reloader_configuration. exact multiplex_reloads.
Qed.

(** Once a template set is there, the reloader never takes it away:
    whatever it receives and however it ends, [templates] is not nil, so
    no page handler meets a nil template set because of a reload. *)
Theorem reloader_keeps_templates (schedule : list (OS * Recv)) (w : World) :
  templates w <> None ->
  templates (fst (Single.templateReloader schedule w)) <> None
  /\ templates (fst (Multiplex.templateReloader schedule w)) <> None.
Proof.
  intros Hw. split.
  - apply (reloader_preserves Single.reloadTemplates
             (fun w' => templates w' <> None) single_reloads);
      try (intros ? w' Hw'; exact Hw'); [|exact Hw].
    intros t w' _. discriminate.
  - apply (reloader_preserves Multiplex.reloadTemplates
             (fun w' => templates w' <> None) multiplex_reloads);
      try (intros ? w' Hw'; exact Hw'); [|exact Hw].
    intros t w' _. discriminate.
Qed.

Lemma reloader_log (reload : M unit) (schedule : list (OS * Recv)) :
  reloads reload ->
  forall w, exists lines,
    logged (fst (templateReloader reload schedule w))
    = (logged w ++ lines)%list
    /\ Forall (fun line =>
                 exists o err,
                   In (o, RecvError err true) schedule
                   /\ line = "error: " ++ err) lines.
Proof.
  intros Hr. induction schedule as [|[o m] rest IH]; intros w.
  - exists []. split; [cbn; rewrite app_nil_r; reflexivity | constructor].
  - rewrite templateReloader_step.
    assert (Hweak : forall lines,
               Forall (fun line =>
                         exists o' err,
                           In (o', RecvError err true) rest
                           /\ line = "error: " ++ err) lines ->
               Forall (fun line =>
                         exists o' err,
                           In (o', RecvError err true) ((o, m) :: rest)
                           /\ line = "error: " ++ err) lines).
    { intros lines. apply Forall_impl. intros line [o' [err [Hin Hl]]].
      exists o', err. split; [right; exact Hin | exact Hl]. }
    destruct m as [[|] | err [|]].
    + destruct (Hr (set_os o w)) as [[msg Hp] | [t Hd]].
      * rewrite (bind_Panic _ _ _ _ _ Hp). exists [].
        split; [cbn; rewrite app_nil_r; reflexivity | constructor].
      * rewrite (bind_Done _ _ _ _ _ Hd).
        destruct (IH (set_templates (Some t) (set_os o w)))
          as [lines [Hl Hall]].
        exists lines. split; [exact Hl | apply Hweak; exact Hall].
    + exists []. split; [cbn; rewrite app_nil_r; reflexivity | constructor].
    + destruct (IH (add_log ("error: " ++ err) (set_os o w)))
        as [lines [Hl Hall]].
      exists (("error: " ++ err) :: lines). split.
      * rewrite Hl. cbn [logged add_log set_os].
        rewrite <- app_assoc. reflexivity.
      * constructor; [|apply Hweak; exact Hall].
        exists o, err. split; [left; reflexivity | reflexivity].
    + exists []. split; [cbn; rewrite app_nil_r; reflexivity | constructor].
Qed.

(** The reloader only adds to the log, and every line it adds reports an
    error it received from the watcher: change events, successful
    reloads and closed channels leave no trace in the log. *)
Theorem reloader_logs_watcher_errors_only (schedule : list (OS * Recv))
    (w : World) :
  (exists lines,
      logged (fst (Single.templateReloader schedule w))
      = (logged w ++ lines)%list
      /\ Forall (fun line =>
                   exists o err,
                     In (o, RecvError err true) schedule
                     /\ line = "error: " ++ err) lines)
  /\ (exists lines,
        logged (fst (Multiplex.templateReloader schedule w))
        = (logged w ++ lines)%list
        /\ Forall (fun line =>
                     exists o err,
                       In (o, RecvError err true) schedule
                       /\ line = "error: " ++ err) lines).
Proof.
  split.
  - apply (reloader_log _ schedule single_reloads).
  - apply (reloader_log _ schedule multiplex_reloads).
Qed.

Lemma reloader_append (reload : M unit) (s1 s2 : list (OS * Recv)) :
  reloads reload ->
  forall w,
    templateReloader reload (s1 ++ s2) w
    = match templateReloader reload s1 w with
      | (w1, Done Waiting) => templateReloader reload s2 w1
      | ended => ended
      end.
Proof.
  intros Hr. induction s1 as [|[o m] rest IH]; intros w; [reflexivity|].
  rewrite <- app_comm_cons. rewrite !templateReloader_step.
  destruct m as [[|] | err [|]]; try reflexivity.
  - destruct (Hr (set_os o w)) as [[msg Hp] | [t Hd]].
    + rewrite !(bind_Panic _ _ _ _ _ Hp). reflexivity.
    + rewrite !(bind_Done _ _ _ _ _ Hd). apply IH.
  - apply IH.
Qed.

(** The loop has no memory but the world: a schedule run in two parts
    gives what it gives in one, the second part being run only when the
    first left the loop waiting. *)
Theorem reloader_runs_in_parts (s1 s2 : list (OS * Recv)) (w : World) :
  Single.templateReloader (s1 ++ s2) w
  = match Single.templateReloader s1 w with
    | (w1, Done Waiting) => Single.templateReloader s2 w1
    | ended => ended
    end
  /\ Multiplex.templateReloader (s1 ++ s2) w
     = match Multiplex.templateReloader s1 w with
       | (w1, Done Waiting) => Multiplex.templateReloader s2 w1
       | ended => ended
       end.
Proof.
  split.
  - apply (reloader_append _ s1 s2 single_reloads).
  - apply (reloader_append _ s1 s2 multiplex_reloads).
Qed.

(** Nothing is received after a channel was found closed: the messages
    that follow in the schedule make no difference, and the loop is
    never left waiting. *)
Theorem reloader_stops_at_closed_channel (s1 rest : list (OS * Recv))
    (o : OS) (m : Recv) (w : World) :
  closed m ->
  Single.templateReloader (s1 ++ (o, m) :: rest) w
  = Single.templateReloader (s1 ++ [(o, m)]) w
  /\ Multiplex.templateReloader (s1 ++ (o, m) :: rest) w
     = Multiplex.templateReloader (s1 ++ [(o, m)]) w
  /\ snd (Single.templateReloader (s1 ++ (o, m) :: rest) w) <> Done Waiting
  /\ snd (Multiplex.templateReloader (s1 ++ (o, m) :: rest) w)
     <> Done Waiting.
Proof.
  intros Hm.
  assert (Hc : forall reload tl w1,
             templateReloader reload ((o, m) :: tl) w1
             = (set_os o w1, Done Returned)).
  { intros reload tl w1. apply templateReloader_closed. exact Hm. }
  unfold Single.templateReloader, Multiplex.templateReloader.
  rewrite !(reloader_append _ s1 _ single_reloads).
  rewrite !(reloader_append _ s1 _ multiplex_reloads).
  repeat split.
  - destruct (templateReloader Single.reloadTemplates s1 w)
      as [w1 [[|] | |]]; try reflexivity. rewrite !Hc. reflexivity.
  - destruct (templateReloader Multiplex.reloadTemplates s1 w)
      as [w1 [[|] | |]]; try reflexivity. rewrite !Hc. reflexivity.
  - destruct (templateReloader Single.reloadTemplates s1 w)
      as [w1 [[|] | |]]; try discriminate. rewrite Hc. discriminate.
  - destruct (templateReloader Multiplex.reloadTemplates s1 w)
      as [w1 [[|] | |]]; try discriminate. rewrite Hc. discriminate.
Qed.

(** The last change event decides: when the loop is left waiting after a
    change event, the template set is the one parsed from the host as it
    was at that event, with the template directory of the flags.  Each
    variant on its own file set. *)
Theorem reloader_last_event_wins (s : list (OS * Recv)) (o : OS)
    (w w' : World) :
  (forall t1,
      template_ParseFiles o
        (single_template_files (templateDirectory (flags w))) = Ok t1 ->
      Single.templateReloader (s ++ [(o, RecvEvent true)]) w
      = (w', Done Waiting) ->
      templates w' = Some t1 /\ os w' = o)
  /\ (forall t2,
        template_ParseFiles o
          (multiplex_template_files (templateDirectory (flags w))) = Ok t2 ->
        Multiplex.templateReloader (s ++ [(o, RecvEvent true)]) w
        = (w', Done Waiting) ->
        templates w' = Some t2 /\ os w' = o).
Proof.
  split.
  - intros t1 H1 Hrun.
    unfold Single.templateReloader in Hrun.
    rewrite (reloader_append _ s _ single_reloads) in Hrun.
    pose proof (reloader_configuration Single.reloadTemplates s w
                  single_reloads) as [[Hf _] _].
    destruct (templateReloader Single.reloadTemplates s w)
      as [w1 [[|] | |]]; try discriminate.
    cbn [fst] in Hf. rewrite templateReloader_step in Hrun.
    erewrite bind_Done in Hrun
      by (apply single_reload_succeeds; cbn [os flags set_os];
          rewrite Hf; exact H1).
    cbn in Hrun. injection Hrun as <-. split; reflexivity.
  - intros t2 H2 Hrun.
    unfold Multiplex.templateReloader in Hrun.
    rewrite (reloader_append _ s _ multiplex_reloads) in Hrun.
    pose proof (reloader_configuration Multiplex.reloadTemplates s w
                  multiplex_reloads) as [[Hf _] _].
    destruct (templateReloader Multiplex.reloadTemplates s w)
      as [w1 [[|] | |]]; try discriminate.
    cbn [fst] in Hf. rewrite templateReloader_step in Hrun.
    erewrite bind_Done in Hrun
      by (apply multiplex_reload_succeeds; cbn [os flags set_os];
          rewrite Hf; exact H2).
    cbn in Hrun. injection Hrun as <-. split; reflexivity.
Qed.

End ReloaderFacts.

(** ** Setting up the watch, start-up and shutdown *)

(** Reduce the reads and writes of world fields. *)
Ltac simpl_world :=
  cbv beta iota zeta;
  cbn [fst snd os flags templates words logged provider tasks notified
       set_os set_flags set_templates set_words add_log add_call add_task
       add_notified wordList templateDirectory download].

Section LifecycleFacts.
Context {E : Externals}.

(** The directory that is watched is [./templates], whatever the flags
    say: [templateChanges] does the same under any flag values, and
    leaves the flags alone. *)
Theorem watch_ignores_flags (f : Flags) (w : World) :
  templateChanges (set_flags f w)
  = (set_flags f (fst (templateChanges w)), snd (templateChanges w)).
Proof.
  unfold templateChanges. run_go. cbn [os set_flags].
  destruct (fsnotify_NewWatcher (os w)) as [watcher | err];
    [|reflexivity].
  destruct (Watcher_Add (os w) watcher (filepath_Join ["./templates"]));
    reflexivity.
Qed.

(** [templateChanges] always returns.  It starts the reloader exactly
    when a watcher could be created and never starts anything else; it
    logs at most one line; the template set, the flags, the word lists
    and the provider calls are not touched. *)
Theorem watch_setup_effect (w : World) :
  exists w',
    templateChanges w = (w', Done tt)
    /\ tasks w'
       = (tasks w
          ++ match fsnotify_NewWatcher (os w) with
             | Ok _ => [TemplateReloaderTask]
             | Err _ => []
             end)%list
    /\ (logged w' = logged w
        \/ exists line, logged w' = (logged w ++ [line])%list)
    /\ templates w' = templates w
    /\ os w' = os w
    /\ same_configuration w w'.
Proof.
  destruct (fsnotify_NewWatcher (os w)) as [watcher | err] eqn:H1.
  - destruct (Watcher_Add (os w) watcher (filepath_Join ["./templates"]))
      as [err |] eqn:H2.
    + eexists. split; [apply (templateChanges_not_watching _ _ _ H1 H2)|].
      repeat split. right. eexists. reflexivity.
    + eexists. split; [apply (templateChanges_watching _ _ H1 H2)|].
      repeat split. left. reflexivity.
  - eexists. split; [apply (templateChanges_no_watcher _ _ H1)|].
    repeat split; [cbn; rewrite app_nil_r; reflexivity|].
    right. eexists. reflexivity.
Qed.

(** Flags that do not parse end either variant at once: one log line,
    exit status 1, and nothing loaded, parsed, watched or started. *)
Theorem flag_failure_exits
    (loadWords : OS -> string -> Outcome (list SpellChecker))
    (downloadFlags : M unit) (shutdown : option string) (w : World)
    (err : string) :
  envflag_Parse (os w) (flags w) = Err err ->
  Single.main shutdown w
  = (add_log ("Unable to parse flags: " ++ err) w, Exit 1)
  /\ Multiplex.main loadWords downloadFlags shutdown w
     = (add_log ("Unable to parse flags: " ++ err) w, Exit 1).
Proof.
  intros H. split.
  - apply single_flag_failure_exits. exact H.
  - unfold Multiplex.main. run_go. rewrite H. reflexivity.
Qed.

(** In download mode the multiplexed [main] runs [downloadFlags] on the
    parsed flags and returns when it does: no word list is loaded, no
    template parsed, no watcher or listener started by [main] itself. *)
Theorem download_mode_only_downloads
    (loadWords : OS -> string -> Outcome (list SpellChecker))
    (downloadFlags : M unit) (shutdown : option string) (w : World)
    (f' : Flags) :
  envflag_Parse (os w) (flags w) = Ok f' ->
  download f' = true ->
  Multiplex.main loadWords downloadFlags shutdown w
  = downloadFlags (set_flags f' w).
Proof.
  intros Hf Hd. unfold Multiplex.main. run_go. rewrite Hf.
  cbn [flags set_flags]. rewrite Hd.
  destruct (downloadFlags (set_flags f' w)) as [w' [[] | code | msg]];
    reflexivity.
Qed.

(** A start-up of the single-list variant that gets through: the flags
    are those parsed, the template set is the one parsed, the reloader
    was started if a watcher could be created, then the listener on
    [:8080] with the five patterns, and last the two signals were asked
    for.  This holds whether shutdown then succeeds or not. *)
Theorem single_startup_order (shutdown : option string) (w : World)
    (f' : Flags) (t : Template) :
  envflag_Parse (os w) (flags w) = Ok f' ->
  template_ParseFiles (os w)
    (single_template_files (templateDirectory f')) = Ok t ->
  flags (fst (Single.main shutdown w)) = f'
  /\ templates (fst (Single.main shutdown w)) = Some t
  /\ tasks (fst (Single.main shutdown w))
     = (tasks w
        ++ match fsnotify_NewWatcher (os w) with
           | Ok _ => [TemplateReloaderTask]
           | Err _ => []
           end
        ++ [ListenAndServeTask ":8080"
              ["/"; "/css"; "/js"; "/anagram"; "/match"]])%list
  /\ notified (fst (Single.main shutdown w))
     = (notified w ++ [os_Interrupt; os_Kill])%list
  /\ provider (fst (Single.main shutdown w)) = provider w.
Proof.
  intros Hflags Hparse.
  unfold Single.main, Single.reloadTemplates, templateChanges. run_go.
  rewrite Hflags. cbn [os flags set_flags set_templates].
  unfold single_template_files in Hparse. rewrite Hparse.
  cbv beta iota zeta. cbn [os flags set_flags set_templates].
  destruct (fsnotify_NewWatcher (os w)) as [watcher | err].
  - destruct (Watcher_Add (os w) watcher (filepath_Join ["./templates"]));
      destruct shutdown; cbn; repeat split; rewrite <- ?app_assoc;
      reflexivity.
  - destruct shutdown; cbn; repeat split.
Qed.

(** When [main] has started the listener, a template set is in place: no
    request can reach a page handler while [templates] is nil. *)
Theorem listener_implies_templates
    (loadWords : OS -> string -> Outcome (list SpellChecker))
    (downloadFlags : M unit) (shutdown : option string) (w : World) :
  (forall addr patterns, ~ In (ListenAndServeTask addr patterns) (tasks w)) ->
  (forall f', envflag_Parse (os w) (flags w) = Ok f' -> download f' = false) ->
  ((exists addr patterns,
       In (ListenAndServeTask addr patterns)
          (tasks (fst (Single.main shutdown w)))) ->
   templates (fst (Single.main shutdown w)) <> None)
  /\ ((exists addr patterns,
         In (ListenAndServeTask addr patterns)
            (tasks (fst (Multiplex.main loadWords downloadFlags shutdown w)))) ->
      templates (fst (Multiplex.main loadWords downloadFlags shutdown w))
      <> None).
Proof.
  intros Hnot Hdl.
  assert (Hno : (exists addr patterns,
                    In (ListenAndServeTask addr patterns) (tasks w)) ->
                forall P : Prop, P).
  { intros [a [p Hin]] P. exfalso. exact (Hnot a p Hin). }
  split.
  - unfold Single.main, Single.reloadTemplates, templateChanges. run_go.
    destruct (envflag_Parse (os w) (flags w)) as [f' | err];
      [|intros H; apply (Hno H)].
    simpl_world.
    destruct (template_ParseFiles _ _) as [t | msg];
      [|intros H; apply (Hno H)].
    simpl_world. intros _.
    destruct (fsnotify_NewWatcher (os w)) as [watcher | err].
    + destruct (Watcher_Add (os w) watcher (filepath_Join ["./templates"]));
        destruct shutdown; simpl_world; discriminate.
    + destruct shutdown; simpl_world; discriminate.
  - unfold Multiplex.main, Multiplex.reloadTemplates, templateChanges. run_go.
    pose proof Hdl as Hdl'.
    destruct (envflag_Parse (os w) (flags w)) as [f' | err];
      [|intros H; apply (Hno H)].
    simpl_world. rewrite (Hdl' f' eq_refl). simpl_world.
    destruct (loadWords (os w) (wordList f')) as [ws | code | p];
      [|intros H; apply (Hno H)|intros H; apply (Hno H)].
    simpl_world.
    destruct (template_ParseFiles _ _) as [t | msg];
      [|intros H; apply (Hno H)].
    simpl_world. intros _.
    destruct (fsnotify_NewWatcher (os w)) as [watcher | err].
    + destruct (Watcher_Add (os w) watcher (filepath_Join ["./templates"]));
        destruct shutdown; simpl_world; discriminate.
    + destruct shutdown; simpl_world; discriminate.
Qed.

(** Once start-up got through and a signal has arrived, the exit status
    is decided by what [server.Shutdown] returned: 0 for a nil error, 1
    for any error.  Each variant on its own start-up: the single-list one
    needs its three template files to parse, the multiplexed one its
    word lists to load and its one template file to parse. *)
Theorem shutdown_decides_exit_status
    (loadWords : OS -> string -> Outcome (list SpellChecker))
    (downloadFlags : M unit) (shutdown : option string)
    (w : World) (f' : Flags) :
  envflag_Parse (os w) (flags w) = Ok f' ->
  (forall t1,
      template_ParseFiles (os w)
        (single_template_files (templateDirectory f')) = Ok t1 ->
      exit_status (snd (Single.main shutdown w))
      = match shutdown with
        | None => 0
        | Some _ => 1
        end)
  /\ (forall ws t2,
        download f' = false ->
        loadWords (os w) (wordList f') = Done ws ->
        template_ParseFiles (os w)
          (multiplex_template_files (templateDirectory f')) = Ok t2 ->
        exit_status (snd (Multiplex.main loadWords downloadFlags shutdown w))
        = match shutdown with
          | None => 0
          | Some _ => 1
          end).
Proof.
  intros Hf. split.
  - intros t1 H1. apply (single_main_exit_status shutdown w f' t1 Hf H1).
  - intros ws t2 Hd Hl H2.
    apply (multiplex_main_exit_status loadWords downloadFlags shutdown w f'
             ws t2 Hf Hd Hl H2).
Qed.

End LifecycleFacts.

(** ** Uploads *)

Section UploadFacts.
Context {E : Externals}.
Variable File : Type.
Variable FormFile : Request -> string -> result File.
Variable File_Close : File -> M (option string).
Variable getImageResults : File -> M (string * Z).

(** A request without the upload field is answered with 500 and the
    body [Error]; the cause is logged; the image reader is not run and
    no file is closed, none having been opened. *)
Theorem upload_without_file (r : Request) (w : World) (err : string) :
  FormFile r "exifFile" = Err err ->
  MultiplexHandlers.exifUpload File FormFile File_Close getImageResults
    newResponseWriter r w
  = (add_log ("Error Getting File " ++ err) w,
     Done (plain_response StatusInternalServerError "Error")).
Proof.
  intros H. unfold MultiplexHandlers.exifUpload. rewrite H. reflexivity.
Qed.

(** The uploaded file is closed when the image reader returns and when
    it panics, in the world the reader left, and only then is the answer
    or the panic passed on; it is not closed when the reader leaves the
    process.  The status the reader picks has to be one [WriteHeader]
    accepts, a three-digit code. *)
Theorem upload_closes_file (rw : ResponseWriter) (r : Request)
    (w w1 w2 : World) (file : File) (o : Outcome (string * Z))
    (e : option string) :
  FormFile r "exifFile" = Ok file ->
  getImageResults file w = (w1, o) ->
  (forall bytes code, o = Done (bytes, code) -> 100 <= code <= 999) ->
  File_Close file w1 = (w2, Done e) ->
  MultiplexHandlers.exifUpload File FormFile File_Close getImageResults rw r w
  = match o with
    | Done (outputBytes, outputStatus) =>
        (w2, Done (Write_bytes (WriteHeader rw outputStatus) outputBytes))
    | Panic p => (w2, Panic p)
    | Exit code => (w1, Exit code)
    end.
Proof.
  intros Hf Hg _ Hc. unfold MultiplexHandlers.exifUpload. rewrite Hf.
  unfold defer.
  destruct o as [[bytes code] | code | p].
  - rewrite (bind_Done _ _ _ _ _ Hg). cbv [ret]. rewrite Hc. reflexivity.
  - rewrite (bind_Exit _ _ _ _ _ Hg). reflexivity.
  - rewrite (bind_Panic _ _ _ _ _ Hg). rewrite Hc. reflexivity.
Qed.

End UploadFacts.

(** * Further runs on the small host *)

Section MoreRuns.

Lemma missing_input_is_invalid_witness :
  (forall vs, ~ In ("input", vs) (Form (bare_request "/match")))
  /\ kowalski_LoadWords (os fresh) (wordList (flags fresh)) = Ok tt
  /\ served Single.matchHandler (bare_request "/match") fresh
     = Some (json_response StatusBadRequest invalid_input_body).
Proof.
  assert (H1 : forall vs, ~ In ("input", vs) (Form (bare_request "/match")))
    by (intros vs H; exact H).
  assert (H2 : kowalski_LoadWords (os fresh) (wordList (flags fresh)) = Ok tt)
    by reflexivity.
  split; [exact H1|]. split; [exact H2|].
  exact (proj2 (proj2 (missing_input_is_invalid _ fresh tt H1 H2))).
Defined.

Lemma valid_lookup_calls_witness :
  kowalski_LoadWords (os fresh) (wordList (flags fresh)) = Ok tt
  /\ valid_length (FormValue (demo_request "/match" "c?t") "input")
  /\ world_after Single.matchHandler (demo_request "/match" "c?t") fresh
     = add_call (CallMatch "c?t")
         (add_call (CallLoadWords "/app/wordlist.txt") fresh).
Proof.
  assert (H1 : kowalski_LoadWords (os fresh) (wordList (flags fresh)) = Ok tt)
    by reflexivity.
  assert (H2 : valid_length (FormValue (demo_request "/match" "c?t") "input"))
    by (vm_compute; split; discriminate).
  split; [exact H1|]. split; [exact H2|].
  exact (proj1 (proj2 (valid_lookup_calls _ fresh tt H1 H2))).
Defined.

Lemma lookup_always_answers_witness :
  (Single.matchHandler = Single.anagramHandler
   \/ Single.matchHandler = Single.matchHandler)
  /\ exists rw,
       served Single.matchHandler (demo_request "/match" "c?t") offline
       = Some rw
       /\ (status rw = Some StatusInternalServerError
           \/ status rw = Some StatusBadRequest
           \/ status rw = Some StatusOK)
       /\ (status rw = Some StatusInternalServerError
           <-> exists err,
                 kowalski_LoadWords (os offline) (wordList (flags offline))
                 = Err err)
       /\ (status rw = Some StatusBadRequest
           <-> (exists ws,
                  kowalski_LoadWords (os offline) (wordList (flags offline))
                  = Ok ws)
               /\ invalid_length
                    (FormValue (demo_request "/match" "c?t") "input")).
Proof.
  assert (H : Single.matchHandler = Single.anagramHandler
              \/ Single.matchHandler = Single.matchHandler)
    by (right; reflexivity).
  split; [exact H|].
  exact (lookup_always_answers Single.matchHandler
           (demo_request "/match" "c?t") offline H).
Defined.

Lemma access_line_follows_error_line_witness :
  kowalski_LoadWords (os offline) (wordList (flags offline))
  = Err "no such file or directory"
  /\ logged (fst (Single.requestLogger Single.anagramHandler
                    newResponseWriter (demo_request "/anagram" "listen")
                    offline))
     = ["Unable to load words: no such file or directory";
        "192.0.2.7:51234" ++ tab ++ tab ++ "GET" ++ tab ++ tab
        ++ "/anagram?input=listen" ++ tab].
Proof.
  assert (H : kowalski_LoadWords (os offline) (wordList (flags offline))
              = Err "no such file or directory") by reflexivity.
  split; [exact H|].
  exact (proj2 (access_line_follows_error_line
                  (demo_request "/anagram" "listen") offline _ H)).
Defined.

Lemma no_access_line_without_return_witness :
  indexHandler newResponseWriter (bare_request "/") fresh
  = (fresh, Panic "invalid memory address or nil pointer dereference")
  /\ (forall rw' : ResponseWriter,
        Panic "invalid memory address or nil pointer dereference"
        <> Done rw')
  /\ Single.requestLogger indexHandler newResponseWriter (bare_request "/")
       fresh
     = (fresh, Panic "invalid memory address or nil pointer dereference").
Proof.
  assert (H1 : indexHandler newResponseWriter (bare_request "/") fresh
               = (fresh,
                  Panic "invalid memory address or nil pointer dereference"))
    by reflexivity.
  assert (H2 : forall rw' : ResponseWriter,
             Panic "invalid memory address or nil pointer dereference"
             <> Done rw') by (intros rw'; discriminate).
  split; [exact H1|]. split; [exact H2|].
  exact (proj1 (no_access_line_without_return indexHandler newResponseWriter
                  (bare_request "/") fresh fresh _ H1 H2)).
Defined.

Lemma index_other_paths_not_found_witness :
  URL_Path (bare_request "/robots.txt") <> "/"
  /\ indexHandler newResponseWriter (bare_request "/robots.txt") fresh
     = (fresh, Done (plain_response StatusNotFound EmptyString)).
Proof.
  assert (H : URL_Path (bare_request "/robots.txt") <> "/")
    by (cbn; discriminate).
  split; [exact H|].
  exact (index_other_paths_not_found (bare_request "/robots.txt") fresh H).
Defined.

Lemma index_failure_before_output_witness :
  URL_Path (bare_request "/") = "/"
  /\ templates without_index = Some ["/app/templates/main.css"]
  /\ Template_Execute ["/app/templates/main.css"] "index.html"
       (Some EmptyString)
     = ([], Some "no such template")
  /\ indexHandler newResponseWriter (bare_request "/") without_index
     = (add_log "Fucked up: no such template" without_index,
        Done (plain_response StatusInternalServerError EmptyString)).
Proof.
  assert (H1 : URL_Path (bare_request "/") = "/") by reflexivity.
  assert (H2 : templates without_index = Some ["/app/templates/main.css"])
    by reflexivity.
  assert (H3 : Template_Execute ["/app/templates/main.css"] "index.html"
                 (Some EmptyString)
               = ([], Some "no such template")) by reflexivity.
  split; [exact H1|]. split; [exact H2|]. split; [exact H3|].
  exact (index_failure_before_output (bare_request "/") without_index _ _
           H1 H2 H3).
Defined.

Lemma index_output_fixes_status_witness :
  URL_Path (bare_request "/") = "/"
  /\ templates with_draft = Some ["/app/templates/draft.html"]
  /\ Template_Execute ["/app/templates/draft.html"] "index.html"
       (Some EmptyString)
     = (["<html>"], Some "unexpected EOF")
  /\ served indexHandler (bare_request "/") with_draft
     = Some (plain_response StatusOK "<html>")
  /\ world_after indexHandler (bare_request "/") with_draft
     = add_log "Fucked up: unexpected EOF" with_draft.
Proof.
  assert (H1 : URL_Path (bare_request "/") = "/") by reflexivity.
  assert (H2 : templates with_draft = Some ["/app/templates/draft.html"])
    by reflexivity.
  assert (H3 : Template_Execute ["/app/templates/draft.html"] "index.html"
                 (Some EmptyString)
               = (["<html>"], Some "unexpected EOF")) by reflexivity.
  split; [exact H1|]. split; [exact H2|]. split; [exact H3|].
  exact (index_output_fixes_status (bare_request "/") with_draft _ _ _ _
           H1 H2 H3).
Defined.

Lemma assets_carry_content_type_witness :
  templates serving = Some ["/app/templates/index.html"]
  /\ exists rw,
       served jsHandler (bare_request "/js") serving = Some rw
       /\ header rw
          = [("Content-Type", "application/javascript; charset=utf-8")]
       /\ (sent rw = None
           \/ sent rw = Some (StatusOK, header rw)
           \/ sent rw = Some (StatusInternalServerError, header rw)).
Proof.
  assert (H : templates serving = Some ["/app/templates/index.html"])
    by reflexivity.
  split; [exact H|].
  exact (proj2 (assets_carry_content_type (bare_request "/js") serving _ H)).
Defined.

Lemma pages_panic_without_templates_witness :
  templates fresh = None
  /\ URL_Path (bare_request "/") = "/"
  /\ exists msg,
       cssHandler newResponseWriter (bare_request "/") fresh
       = (fresh, Panic msg).
Proof.
  assert (H1 : templates fresh = None) by reflexivity.
  assert (H2 : URL_Path (bare_request "/") = "/") by reflexivity.
  split; [exact H1|]. split; [exact H2|].
  exact (proj1 (proj2 (pages_panic_without_templates newResponseWriter
                         (bare_request "/") fresh H1 H2))).
Defined.

Lemma reloader_keeps_templates_witness :
  templates serving <> None
  /\ templates
       (fst (Single.templateReloader
               [(healthy, RecvEvent true); (broken_templates, RecvEvent true)]
               serving))
     <> None.
Proof.
  assert (H : templates serving <> None) by discriminate.
  split; [exact H|].
  exact (proj1 (reloader_keeps_templates
                  [(healthy, RecvEvent true);
                   (broken_templates, RecvEvent true)] serving H)).
Defined.

Lemma reloader_stops_at_closed_channel_witness :
  closed (RecvEvent false)
  /\ Single.templateReloader
       ([(healthy, RecvError "queue overflow" true)]
        ++ (healthy, RecvEvent false) :: [(broken_templates, RecvEvent true)])
       serving
     = Single.templateReloader
         ([(healthy, RecvError "queue overflow" true)]
          ++ [(healthy, RecvEvent false)])
         serving.
Proof.
  assert (H : closed (RecvEvent false)) by (left; reflexivity).
  split; [exact H|].
  exact (proj1 (reloader_stops_at_closed_channel
                  [(healthy, RecvError "queue overflow" true)]
                  [(broken_templates, RecvEvent true)] healthy
                  (RecvEvent false) serving H)).
Defined.

Lemma reloader_last_event_wins_witness :
  @template_ParseFiles demo_index_only healthy
    (multiplex_template_files
       (templateDirectory (flags (index_only_world None))))
  = Ok ["/app/templates/index.html"]
  /\ @template_ParseFiles demo_index_only healthy
       (single_template_files
          (templateDirectory (flags (index_only_world None))))
     = Err "open /app/templates/main.css: no such file or directory"
  /\ @Multiplex.templateReloader demo_index_only
       ([(healthy, RecvError "queue overflow" true)]
        ++ [(healthy, RecvEvent true)]) (index_only_world None)
     = (index_only_reloaded,
        Done Waiting)
  /\ @templates demo_index_only index_only_reloaded
     = Some ["/app/templates/index.html"].
Proof.
  assert (H2 : @template_ParseFiles demo_index_only healthy
                 (multiplex_template_files
                    (templateDirectory (flags (index_only_world None))))
               = Ok ["/app/templates/index.html"]) by reflexivity.
  assert (H3 : @Multiplex.templateReloader demo_index_only
                 ([(healthy, RecvError "queue overflow" true)]
                  ++ [(healthy, RecvEvent true)]) (index_only_world None)
               = (index_only_reloaded,
                  Done Waiting)) by reflexivity.
  split; [exact H2|]. split; [reflexivity|]. split; [exact H3|].
  exact (proj1 (proj2 (@reloader_last_event_wins demo_index_only
                         [(healthy, RecvError "queue overflow" true)]
                         healthy (index_only_world None) _) _ H2 H3)).
Defined.

Lemma flag_failure_exits_witness :
  @envflag_Parse demo_bad_flags (os bad_flags_world) (flags bad_flags_world)
  = Err "flag provided but not defined: -x"
  /\ @Single.main demo_bad_flags None bad_flags_world
     = (add_log "Unable to parse flags: flag provided but not defined: -x"
          bad_flags_world, Exit 1)
  /\ @Multiplex.main demo_bad_flags demo_loadWords
       (@ret demo_bad_flags unit tt) None bad_flags_world
     = (add_log "Unable to parse flags: flag provided but not defined: -x"
          bad_flags_world, Exit 1).
Proof.
  assert (H : @envflag_Parse demo_bad_flags (os bad_flags_world)
                (flags bad_flags_world)
              = Err "flag provided but not defined: -x") by reflexivity.
  split; [exact H|].
  exact (@flag_failure_exits demo_bad_flags demo_loadWords
           (@ret demo_bad_flags unit tt) None bad_flags_world _ H).
Defined.

Lemma download_mode_only_downloads_witness :
  envflag_Parse (os download_world) (flags download_world)
  = Ok (mkFlags "/app/wordlists" "/app/templates" true)
  /\ download (mkFlags "/app/wordlists" "/app/templates" true) = true
  /\ Multiplex.main demo_loadWords (log_Print "flags downloaded") None
       download_world
     = (add_log "flags downloaded" download_world, Done tt).
Proof.
  assert (H1 : envflag_Parse (os download_world) (flags download_world)
               = Ok (mkFlags "/app/wordlists" "/app/templates" true))
    by reflexivity.
  assert (H2 : download (mkFlags "/app/wordlists" "/app/templates" true)
               = true) by reflexivity.
  split; [exact H1|]. split; [exact H2|].
  exact (download_mode_only_downloads demo_loadWords
           (log_Print "flags downloaded") None download_world _ H1 H2).
Defined.

Lemma single_startup_order_witness :
  envflag_Parse (os fresh) (flags fresh) = Ok default_flags
  /\ template_ParseFiles (os fresh)
       (single_template_files (templateDirectory default_flags))
     = Ok ["/app/templates/main.css"; "/app/templates/index.html";
           "/app/templates/main.js"]
  /\ tasks (fst (Single.main None fresh))
     = [TemplateReloaderTask;
        ListenAndServeTask ":8080" ["/"; "/css"; "/js"; "/anagram"; "/match"]].
Proof.
  assert (H1 : envflag_Parse (os fresh) (flags fresh) = Ok default_flags)
    by reflexivity.
  assert (H2 : template_ParseFiles (os fresh)
                 (single_template_files (templateDirectory default_flags))
               = Ok ["/app/templates/main.css"; "/app/templates/index.html";
                     "/app/templates/main.js"]) by reflexivity.
  split; [exact H1|]. split; [exact H2|].
  exact (proj1 (proj2 (proj2 (single_startup_order None fresh _ _ H1 H2)))).
Defined.

Lemma listener_implies_templates_witness :
  (forall addr patterns,
      ~ In (ListenAndServeTask addr patterns) (tasks fresh))
  /\ (forall f',
        envflag_Parse (os fresh) (flags fresh) = Ok f' -> download f' = false)
  /\ templates (fst (Single.main None fresh)) <> None.
Proof.
  assert (H1 : forall addr patterns,
             ~ In (ListenAndServeTask addr patterns) (tasks fresh))
    by (intros addr patterns H; exact H).
  assert (H2 : forall f',
             envflag_Parse (os fresh) (flags fresh) = Ok f' ->
             download f' = false)
    by (intros f' H; injection H as <-; reflexivity).
  split; [exact H1|]. split; [exact H2|].
  apply (proj1 (@listener_implies_templates demo demo_loadWords (ret tt)
                  None fresh H1 H2)).
  exists ":8080", ["/"; "/css"; "/js"; "/anagram"; "/match"].
  right. left. reflexivity.
Defined.

Lemma shutdown_decides_exit_status_witness :
  @envflag_Parse demo_index_only (os (index_only_world None))
    (flags (index_only_world None)) = Ok default_flags
  /\ download default_flags = false
  /\ demo_loadWords (os (index_only_world None)) (wordList default_flags)
     = Done [tt; tt]
  /\ @template_ParseFiles demo_index_only (os (index_only_world None))
       (multiplex_template_files (templateDirectory default_flags))
     = Ok ["/app/templates/index.html"]
  /\ @template_ParseFiles demo_index_only (os (index_only_world None))
       (single_template_files (templateDirectory default_flags))
     = Err "open /app/templates/main.css: no such file or directory"
  /\ exit_status
       (snd (@Multiplex.main demo_index_only demo_loadWords
               (@ret demo_index_only unit tt)
               (Some "context deadline exceeded") (index_only_world None)))
     = 1.
Proof.
  assert (H1 : @envflag_Parse demo_index_only (os (index_only_world None))
                 (flags (index_only_world None)) = Ok default_flags)
    by reflexivity.
  assert (H2 : download default_flags = false) by reflexivity.
  assert (H3 : demo_loadWords (os (index_only_world None))
                 (wordList default_flags) = Done [tt; tt]) by reflexivity.
  assert (H4 : @template_ParseFiles demo_index_only
                 (os (index_only_world None))
                 (multiplex_template_files (templateDirectory default_flags))
               = Ok ["/app/templates/index.html"]) by reflexivity.
  split; [exact H1|]. split; [exact H2|]. split; [exact H3|].
  split; [exact H4|]. split; [reflexivity|].
  exact (proj2 (@shutdown_decides_exit_status demo_index_only demo_loadWords
                  (@ret demo_index_only unit tt)
                  (Some "context deadline exceeded") (index_only_world None)
                  default_flags H1) _ _ H2 H3 H4).
Defined.

Lemma upload_without_file_witness :
  demo_FormFile (bare_request "/exifUpload") "exifFile"
  = Err "http: no such file"
  /\ MultiplexHandlers.exifUpload string demo_FormFile demo_Close
       demo_getImageResults newResponseWriter (bare_request "/exifUpload")
       serving
     = (add_log "Error Getting File http: no such file" serving,
        Done (plain_response StatusInternalServerError "Error")).
Proof.
  assert (H : demo_FormFile (bare_request "/exifUpload") "exifFile"
              = Err "http: no such file") by reflexivity.
  split; [exact H|].
  exact (upload_without_file string demo_FormFile demo_Close
           demo_getImageResults (bare_request "/exifUpload") serving _ H).
Defined.

Lemma upload_closes_file_witness :
  demo_FormFile (upload_request "scan.png") "exifFile" = Ok "scan.png"
  /\ demo_getImageResults "scan.png" serving
     = (serving, Panic "unreadable image")
  /\ (forall (bytes : string) (code : Z),
        Panic "unreadable image" = Done (bytes, code) -> 100 <= code <= 999)
  /\ demo_Close "scan.png" serving
     = (add_log "closed scan.png" serving, Done None)
  /\ MultiplexHandlers.exifUpload string demo_FormFile demo_Close
       demo_getImageResults newResponseWriter (upload_request "scan.png")
       serving
     = (add_log "closed scan.png" serving, Panic "unreadable image").
Proof.
  assert (H1 : demo_FormFile (upload_request "scan.png") "exifFile"
               = Ok "scan.png") by reflexivity.
  assert (H2 : demo_getImageResults "scan.png" serving
               = (serving, Panic "unreadable image")) by reflexivity.
  assert (H3 : forall (bytes : string) (code : Z),
             Panic "unreadable image" = Done (bytes, code) ->
             100 <= code <= 999) by (intros bytes code H; discriminate H).
  assert (H4 : demo_Close "scan.png" serving
               = (add_log "closed scan.png" serving, Done None))
    by reflexivity.
  split; [exact H1|]. split; [exact H2|]. split; [exact H3|].
  split; [exact H4|].
  exact (upload_closes_file string demo_FormFile demo_Close
           demo_getImageResults newResponseWriter (upload_request "scan.png")
           serving serving _ "scan.png" _ None H1 H2 H3 H4).
Defined.

End MoreRuns.
